(** * The address book of homework_12.py

    A shallow embedding of the validated fields ([NameField], [PhoneField],
    [BirthDayField]), of the contact [record] and of the paginated
    [AddressBook], followed by the properties of the book that the
    specification states.

    Conventions of the embedding.
    - A Python [str] is a [string]; its characters are code points below 256.
      A value that may also be [None] is an [option string].
    - An exception is a value of [exn]; a call that may raise returns a
      [result].  A method that mutates [self] before raising returns the
      new state of [self] next to the result.
    - [datetime.now()] reads the clock: every function that calls it takes
      the reading as its argument [now].
    - The insertion-ordered [dict] of the book is an association list whose
      keys are kept distinct by [dict_set].
    - The generator [__iter__] is the list of the pages it yields. *)

From Stdlib Require Import ZArith String Ascii List Lia Bool.
From Stdlib Require Import Numbers.DecimalString.
Import ListNotations.

Local Open Scope string_scope.
Local Open Scope list_scope.
Local Open Scope Z_scope.

(** ** Exceptions *)

Inductive exn : Type :=
| ValueError (msg : string)
| KeyError (msg : string)
| AttributeError (msg : string).

Inductive result (A : Type) : Type :=
| Ok (a : A)
| Raise (e : exn).

Arguments Ok {A} a.
Arguments Raise {A} e.

Definition bind {A B : Type} (r : result A) (k : A -> result B) : result B :=
  match r with
  | Ok a => k a
  | Raise e => Raise e
  end.

Notation "x <- r ;; k" := (bind r (fun x => k))
  (at level 61, r at next level, right associativity).

(** ** The string operations of the standard library that the code calls *)

Module PyStr.

(** [str.isspace] on one character (code points below 256). *)
Definition isspace (c : ascii) : bool :=
  let n := nat_of_ascii c in
  ((9 <=? n) && (n <=? 13) || (28 <=? n) && (n <=? 32)
   || (n =? 133) || (n =? 160))%nat.

(** [\d] on one character (code points below 256). *)
Definition isdigit (c : ascii) : bool :=
  let n := nat_of_ascii c in ((48 <=? n) && (n <=? 57))%nat.

Fixpoint lstrip_space (s : string) : string :=
  match s with
  | EmptyString => EmptyString
  | String c r => if isspace c then lstrip_space r else s
  end.

Fixpoint reverse (s : string) : string :=
  match s with
  | EmptyString => EmptyString
  | String c r => (reverse r ++ String c EmptyString)%string
  end.

(** [s.strip()] *)
Definition strip (s : string) : string :=
  reverse (lstrip_space (reverse (lstrip_space s))).

(** [s.lstrip(c)] for a set of one character: every leading [c] goes. *)
Fixpoint lstrip (c : ascii) (s : string) : string :=
  match s with
  | EmptyString => EmptyString
  | String a r => if Ascii.eqb a c then lstrip c r else s
  end.

(** The longest prefix of digits, and what follows it. *)
Fixpoint span_digits (s : string) : string * string :=
  match s with
  | EmptyString => (EmptyString, EmptyString)
  | String c r =>
      if isdigit c
      then let (d, t) := span_digits r in (String c d, t)
      else (EmptyString, s)
  end.

Definition newline : ascii := "010"%char.

(** [$]: the end of the string, or just before a newline that ends it. *)
Definition at_end (s : string) : bool :=
  String.eqb s EmptyString || String.eqb s (String newline EmptyString).

(** [re.match(r"^\+?[\d]{10,14}$", s)] finds a match. *)
Definition match_phone (s : string) : bool :=
  let s1 := match s with
            | String c r => if Ascii.eqb c "+"%char then r else s
            | EmptyString => s
            end in
  let (d, t) := span_digits s1 in
  ((10 <=? String.length d) && (String.length d <=? 14))%nat && at_end t.

(** [re.match(r"^\d{4}\-\d?\d\-\d?\d$", s)] finds a match. *)
Definition match_birthday (s : string) : bool :=
  let (y, t1) := span_digits s in
  match t1 with
  | String c1 r1 =>
      let (m, t2) := span_digits r1 in
      match t2 with
      | String c2 r2 =>
          let (d, t3) := span_digits r2 in
          (String.length y =? 4)%nat && Ascii.eqb c1 "-"%char
          && ((1 <=? String.length m) && (String.length m <=? 2))%nat
          && Ascii.eqb c2 "-"%char
          && ((1 <=? String.length d) && (String.length d <=? 2))%nat
          && at_end t3
      | EmptyString => false
      end
  | EmptyString => false
  end.

(** [str(n)] for an [int]. *)
Definition str_int (n : Z) : string := NilZero.string_of_int (Z.to_int n).

(** [int(s)] for a string of decimal digits, most significant first. *)
Fixpoint int_digits (acc : Z) (s : string) : option Z :=
  match s with
  | EmptyString => Some acc
  | String c r =>
      if isdigit c
      then int_digits (10 * acc + (Z.of_nat (nat_of_ascii c) - 48)) r
      else None
  end.

Definition hex_digit (n : nat) : ascii :=
  ascii_of_nat (if (n <? 10)%nat then 48 + n else 87 + n).

(** [c.isprintable()] for a code point below 256: not a control
    character, not the no-break space, not the soft hyphen. *)
Definition isprintable (c : ascii) : bool :=
  let n := nat_of_ascii c in
  negb ((n <? 32) || (127 <=? n) && (n <=? 160) || (n =? 173))%nat.

Fixpoint has_char (c : ascii) (s : string) : bool :=
  match s with
  | EmptyString => false
  | String a r => Ascii.eqb a c || has_char c r
  end.

Definition backslash : ascii := "092"%char.
Definition quote1 : ascii := "039"%char.
Definition quote2 : ascii := "034"%char.

Fixpoint repr_body (quote : ascii) (s : string) : string :=
  match s with
  | EmptyString => EmptyString
  | String c r =>
      let rest := repr_body quote r in
      let n := nat_of_ascii c in
      if Ascii.eqb c quote || Ascii.eqb c backslash
      then String backslash (String c rest)
      else if (n =? 9)%nat then String backslash (String "t" rest)
      else if (n =? 10)%nat then String backslash (String "n" rest)
      else if (n =? 13)%nat then String backslash (String "r" rest)
      else if isprintable c then String c rest
      else String backslash
             (String "x"
                (String (hex_digit (n / 16)) (String (hex_digit (n mod 16)) rest)))
  end.

(** [repr(s)]: in single quotes, or in double quotes when [s] holds a
    single quote and no double quote. *)
Definition repr (s : string) : string :=
  let quote := if has_char quote1 s && negb (has_char quote2 s)
               then quote2 else quote1 in
  String quote (repr_body quote s ++ String quote EmptyString)%string.

End PyStr.

(** ** [datetime]: the part of the module the code uses

    The date arithmetic follows the reference implementation of the
    [datetime] module: proleptic Gregorian ordinals, field-wise
    comparison, and a difference normalised so that [.days] is the floor
    of the difference in days. *)

Module DateTime.

Record datetime : Type := mk_datetime {
  year : Z; month : Z; day : Z;
  hour : Z; minute : Z; second : Z; microsecond : Z
}.

Definition MINYEAR : Z := 1.
Definition MAXYEAR : Z := 9999.

Definition _is_leap (y : Z) : bool :=
  (y mod 4 =? 0) && (negb (y mod 100 =? 0) || (y mod 400 =? 0)).

Definition _days_before_year (y : Z) : Z :=
  let y1 := y - 1 in y1 * 365 + y1 / 4 - y1 / 100 + y1 / 400.

Definition _DAYS_IN_MONTH : list Z :=
  [-1; 31; 28; 31; 30; 31; 30; 31; 31; 30; 31; 30; 31].

Definition _DAYS_BEFORE_MONTH : list Z :=
  [-1; 0; 31; 59; 90; 120; 151; 181; 212; 243; 273; 304; 334].

Definition _days_in_month (y m : Z) : Z :=
  if (m =? 2) && _is_leap y then 29
  else nth (Z.to_nat m) _DAYS_IN_MONTH 0.

Definition _days_before_month (y m : Z) : Z :=
  nth (Z.to_nat m) _DAYS_BEFORE_MONTH 0
  + (if (2 <? m) && _is_leap y then 1 else 0).

Definition _ymd2ord (y m d : Z) : Z :=
  _days_before_year y + _days_before_month y m + d.

(** [datetime(year, month, day)]: the fields are checked, the time of
    day is midnight. *)
Definition new (y m d : Z) : result datetime :=
  if negb ((MINYEAR <=? y) && (y <=? MAXYEAR))
  then Raise (ValueError ("year " ++ PyStr.str_int y ++ " is out of range")%string)
  else if negb ((1 <=? m) && (m <=? 12))
  then Raise (ValueError "month must be in 1..12")
  else if negb ((1 <=? d) && (d <=? _days_in_month y m))
  then Raise (ValueError "day is out of range for month")
  else Ok (mk_datetime y m d 0 0 0 0).

Definition toordinal (t : datetime) : Z :=
  _ymd2ord (year t) (month t) (day t).

Definition fields (t : datetime) : list Z :=
  [year t; month t; day t; hour t; minute t; second t; microsecond t].

Fixpoint _cmp (a b : list Z) : comparison :=
  match a, b with
  | x :: a', y :: b' =>
      match x ?= y with
      | Eq => _cmp a' b'
      | c => c
      end
  | [], [] => Eq
  | [], _ :: _ => Lt
  | _ :: _, [] => Gt
  end.

(** [a > b] *)
Definition gt (a b : datetime) : bool :=
  match _cmp (fields a) (fields b) with
  | Gt => true
  | _ => false
  end.

Definition seconds_of_day (t : datetime) : Z :=
  second t + minute t * 60 + hour t * 3600.

(** [(a - b).days]: the difference is a [timedelta] of
    [toordinal a - toordinal b] days, the difference of the seconds and
    of the microseconds, normalised to [0 <= seconds < 86400] and
    [0 <= microseconds < 10**6]. *)
Definition sub_days (a b : datetime) : Z :=
  let days := toordinal a - toordinal b in
  let secs := seconds_of_day a - seconds_of_day b in
  let us := microsecond a - microsecond b in
  ((days * 86400 + secs) * 1000000 + us) / (86400 * 1000000).

(** [datetime.fromisoformat(s)] on the strings the birthday pattern lets
    through: only the ten characters [YYYY-MM-DD] parse, and the date
    they name goes through the checks of [new]. *)
Definition fromisoformat (s : string) : result datetime :=
  let invalid :=
    Raise (ValueError ("Invalid isoformat string: " ++ PyStr.repr s)%string) in
  if (String.length s =? 10)%nat
     && String.eqb (substring 4 1 s) "-"
     && String.eqb (substring 7 1 s) "-"
  then
    match PyStr.int_digits 0 (substring 0 4 s),
          PyStr.int_digits 0 (substring 5 2 s),
          PyStr.int_digits 0 (substring 8 2 s) with
    | Some y, Some m, Some d => new y m d
    | _, _, _ => invalid
    end
  else invalid.

(** The values a [datetime] object can hold. *)
Definition valid (t : datetime) : Prop :=
  MINYEAR <= year t <= MAXYEAR /\ 1 <= month t <= 12
  /\ 1 <= day t <= _days_in_month (year t) (month t)
  /\ 0 <= hour t < 24 /\ 0 <= minute t < 60 /\ 0 <= second t < 60
  /\ 0 <= microsecond t < 1000000.

End DateTime.

Import DateTime.

(** ** The validated fields

    A validator of the source returns [True] or raises.  Here it returns
    the string it accepted, so that the setter stores a [string]: an
    accepted value is never [None]. *)

Module NameField.

Record t : Type := mk { value : string }.

Definition __validate_name__ (new_value : option string) : result string :=
  match new_value with
  | None => Raise (ValueError "Name cannot be None")
  | Some s =>
      if String.eqb (PyStr.strip s) ""
      then Raise (ValueError "Name cannot be empty or whitespaces")
      else Ok s
  end.

(** [self.value = new_value] *)
Definition set_value (self : t) (new_value : option string) : t * result unit :=
  match __validate_name__ new_value with
  | Ok s => (mk s, Ok tt)
  | Raise e => (self, Raise e)
  end.

(** [NameField(name)] *)
Definition init (name : option string) : result t :=
  s <- __validate_name__ name ;; Ok (mk s).

End NameField.

Module PhoneField.

Record t : Type := mk { value : string }.

Definition __validate_phone__ (v : option string) : result string :=
  match v with
  | None => Raise (ValueError "Phone cannot be None")
  | Some s =>
      if String.eqb (PyStr.strip s) ""
      then Raise (ValueError "Phone cannot be empty or whitespaces")
      else if PyStr.match_phone s then Ok s
      else Raise (ValueError "Phone is not correct")
  end.

Definition set_value (self : t) (new_value : option string) : t * result unit :=
  match __validate_phone__ new_value with
  | Ok s => (mk s, Ok tt)
  | Raise e => (self, Raise e)
  end.

Definition init (phone : option string) : result t :=
  s <- __validate_phone__ phone ;; Ok (mk s).

Definition get_phone_code (self : t) : string :=
  PyStr.lstrip "0" (PyStr.lstrip "+" (value self)).

End PhoneField.

Module BirthDayField.

(** [date] is [None] until a value has parsed. *)
Record t : Type := mk { value : string; date : option datetime }.

(** The validator writes [self.date] as soon as the value has parsed,
    before it compares the date with the clock: it returns the [date]
    attribute as it leaves it, next to its result. *)
Definition __validate_birthday__ (now : datetime) (self_date : option datetime)
    (v : option string) : option datetime * result string :=
  match v with
  | None => (self_date, Raise (ValueError "Birthday cannot be None"))
  | Some s =>
      if String.eqb (PyStr.strip s) ""
      then (self_date, Raise (ValueError "Birthday cannot be empty or whitespaces"))
      else if PyStr.match_birthday s then
        match fromisoformat s with
        | Raise e => (self_date, Raise e)
        | Ok d =>
            if DateTime.gt d now
            then (Some d, Raise (ValueError "Birthday cannot be than now"))
            else (Some d, Ok s)
        end
      else (self_date,
            Raise (ValueError "Birthday is not correct, should be YYYY-MM-DD"))
  end.

Definition set_value (now : datetime) (self : t) (new_value : option string)
    : t * result unit :=
  match __validate_birthday__ now (date self) new_value with
  | (d, Ok s) => (mk s d, Ok tt)
  | (d, Raise e) => (mk (value self) d, Raise e)
  end.

(** [BirthDayField(b)]: [self.date = None], then the setter. *)
Definition init (now : datetime) (b : option string) : result t :=
  match __validate_birthday__ now None b with
  | (d, Ok s) => Ok (mk s d)
  | (_, Raise e) => Raise e
  end.

Definition get_datetime (self : t) : option datetime := date self.

End BirthDayField.

(** ** [Record] *)

Record record : Type := mk_record {
  name : NameField.t;
  phones : list PhoneField.t;
  birthday : option BirthDayField.t
}.

(** [Record(name, b)] *)
Definition Record_init (n : option string) (b : option BirthDayField.t)
    : result record :=
  nf <- NameField.init n ;; Ok (mk_record nf [] b).

Definition set_birthday (self : record) (b : BirthDayField.t) : record :=
  mk_record (name self) (phones self) (Some b).

Definition add_phone (self : record) (phone : PhoneField.t) : record :=
  mk_record (name self) (phones self ++ [phone]) (birthday self).

Definition phones_clear (self : record) : record :=
  mk_record (name self) [] (birthday self).

Definition edit_phone (self : record) (new_phone : PhoneField.t) : record :=
  add_phone (phones_clear self) new_phone.

(** The loop of [delete_phone]: the first phone whose code is [phone_code]
    is removed and the loop stops. *)
Fixpoint remove_first_code (phone_code : string) (l : list PhoneField.t)
    : list PhoneField.t :=
  match l with
  | [] => []
  | s :: rest =>
      if String.eqb (PhoneField.get_phone_code s) phone_code
      then rest
      else s :: remove_first_code phone_code rest
  end.

Definition delete_phone (self : record) (number : string) : record :=
  let phone_code := PyStr.lstrip "0" (PyStr.lstrip "+" number) in
  mk_record (name self) (remove_first_code phone_code (phones self))
    (birthday self).

Definition days_to_birthday (now : datetime) (self : record) : result Z :=
  match birthday self with
  | None =>
      Raise (AttributeError "'NoneType' object has no attribute 'get_datetime'")
  | Some b =>
      match BirthDayField.get_datetime b with
      | None => Raise (AttributeError "'NoneType' object has no attribute 'month'")
      | Some bd =>
          delta1 <- DateTime.new (year now) (month bd) (day bd) ;;
          delta2 <- DateTime.new (year now + 1) (month bd) (day bd) ;;
          Ok (DateTime.sub_days
                (if DateTime.gt delta1 now then delta1 else delta2) now)
      end
  end.

(** ** The persisted format

    One element of the JSON array.  A key may be missing (outer [None]);
    the value of a key that is present is a string or [null]. *)

Record json_record : Type := mk_json {
  j_name : option (option string);
  j_birthday : option (option string);
  j_phones : option (list (option string))
}.

Definition get_json_data (self : record) : json_record :=
  mk_json
    (Some (Some (NameField.value (name self))))
    (match birthday self with
     | Some b => Some (Some (BirthDayField.value b))
     | None => None
     end)
    (Some (map (fun phone => Some (PhoneField.value phone)) (phones self))).

(** ** [AddressBook] *)

(** [d[k] = v] on an insertion-ordered dict: an existing key keeps its
    place, a new key goes last. *)
Fixpoint dict_set {V : Type} (d : list (string * V)) (k : string) (v : V)
    : list (string * V) :=
  match d with
  | [] => [(k, v)]
  | (k', v') :: rest =>
      if String.eqb k' k then (k, v) :: rest
      else (k', v') :: dict_set rest k v
  end.

Record AddressBook : Type := mk_book {
  data : list (string * record);
  max_page : Z
}.

(** [AddressBook(max_page)] *)
Definition AddressBook_init (mp : option Z) : AddressBook :=
  mk_book [] (match mp with None => 3 | Some p => p end).

Definition add_record (self : AddressBook) (r : record) : AddressBook :=
  mk_book (dict_set (data self) (NameField.value (name r)) r) (max_page self).

Definition items (self : AddressBook) : list (string * record) := data self.

(** The loop of [__iter__], from the items still to visit and the page
    under construction to the pages yielded. *)
Fixpoint iter_loop (mp : Z) (its : list (string * record)) (page : list record)
    : list (list record) :=
  match its with
  | [] => match page with
          | [] => []
          | _ :: _ => [page]
          end
  | (_, r) :: rest =>
      let page' := page ++ [r] in
      if Z.of_nat (length page') =? mp
      then page' :: iter_loop mp rest []
      else iter_loop mp rest page'
  end.

(** [iter(self)], as the list of its pages. *)
Definition iter (self : AddressBook) : list (list record) :=
  iter_loop (max_page self) (items self) [].

Fixpoint getitem_loop (pages : list (list record)) (page_number p : Z)
    : result (list record) :=
  match pages with
  | [] => Raise (KeyError ("index out of range in book, max page: "
                            ++ PyStr.str_int p)%string)
  | page :: rest =>
      if page_number =? p then Ok page
      else getitem_loop rest page_number (p + 1)
  end.

(** [self[page_number]] *)
Definition getitem (self : AddressBook) (page_number : Z) : result (list record) :=
  getitem_loop (iter self) page_number 1.

(** What [json.load] makes of the file: it raises [JSONDecodeError] or
    returns the decoded array.  [save_to_file] hands [json.dump] such an
    array, and [json.load] gives back the array [json.dump] was given. *)
Inductive file : Type :=
| Malformed (error : string)
| Decoded (address_book_json : list json_record).

Definition save_to_file (self : AddressBook) : file :=
  Decoded (map (fun kr => get_json_data (snd kr)) (data self)).

Fixpoint load_phones (r : record) (ps : list (option string))
    : result record :=
  match ps with
  | [] => Ok r
  | phone :: rest =>
      pf <- PhoneField.init phone ;; load_phones (add_phone r pf) rest
  end.

(** The body of the [try] of [load_from_file], up to [add_record]:
    [None] when the element has no name. *)
Definition rebuild (now : datetime) (j : json_record) : result (option record) :=
  match j_name j with
  | None => Ok None
  | Some n =>
      r <- Record_init n None ;;
      r <- match j_birthday j with
           | Some b => bf <- BirthDayField.init now b ;; Ok (set_birthday r bf)
           | None => Ok r
           end ;;
      r <- match j_phones j with
           | Some ps => load_phones r ps
           | None => Ok r
           end ;;
      Ok (Some r)
  end.

(** The [for] loop of [load_from_file].  [record_index] is the variable
    of the source: the loop reads it and never assigns it. *)
Fixpoint load_loop (now : datetime) (self : AddressBook) (record_index : Z)
    (js : list json_record) : AddressBook * result (option string) :=
  match js with
  | [] => (self, Ok None)
  | j :: rest =>
      match rebuild now j with
      | Ok (Some r) => load_loop now (add_record self r) record_index rest
      | Ok None => load_loop now self record_index rest
      | Raise (ValueError e) =>
          (self, Ok (Some ("Validation error in " ++ PyStr.str_int record_index
                           ++ " record: " ++ e)%string))
      | Raise e => (self, Raise e)
      end
  end.

(** [self.load_from_file(filename)]: the book after the call and what the
    call returns ([None] or a message). *)
Definition load_from_file (now : datetime) (self : AddressBook) (f : file)
    : AddressBook * result (option string) :=
  match f with
  | Malformed e => (self, Ok (Some e))
  | Decoded address_book_json =>
      load_loop now (mk_book [] (max_page self)) 0 address_book_json
  end.

(** ** Notions the properties are stated with *)

Definition keys (self : AddressBook) : list string := map fst (data self).

(** What the persisted format keeps of a record. *)
Definition record_tuple (r : record) : string * list string * option string :=
  (NameField.value (name r),
   map PhoneField.value (phones r),
   option_map BirthDayField.value (birthday r)).

Definition accepted {A : Type} (r : result A) : bool :=
  match r with
  | Ok _ => true
  | Raise _ => false
  end.

(** Every field of the record holds a value its class accepts (for the
    birthday, at the clock reading [now]). *)
Definition valid_fields (now : datetime) (r : record) : bool :=
  accepted (NameField.init (Some (NameField.value (name r))))
  && forallb (fun p => accepted (PhoneField.init (Some (PhoneField.value p))))
       (phones r)
  && match birthday r with
     | Some b => accepted (BirthDayField.init now (Some (BirthDayField.value b)))
     | None => true
     end.

(** The names of the records of the book, in key order. *)
Definition names (self : AddressBook) : list string :=
  map (fun kr => NameField.value (name (snd kr))) (data self).

(** The book as [add_record] builds it: every record sits under its own
    name, and no key occurs twice. *)
Definition book_wf (self : AddressBook) : Prop :=
  Forall (fun kr => fst kr = NameField.value (name (snd kr))) (data self)
  /\ NoDup (keys self).

(** The message of a failed load that names the record at [index]. *)
Definition reports_index (index : Z) (message : string) : Prop :=
  exists e, message
            = ("Validation error in " ++ PyStr.str_int index ++ " record: " ++ e)%string.

(** *** Sample data *)

Module Sample.

Definition noon_2024_05_10 : datetime := mk_datetime 2024 5 10 12 0 0 0.

Definition born_2000_05_10 : BirthDayField.t :=
  BirthDayField.mk "2000-05-10" (Some (mk_datetime 2000 5 10 0 0 0 0)).

Definition ann : record :=
  mk_record (NameField.mk "Ann") [PhoneField.mk "+380501234567"]
    (Some born_2000_05_10).

Definition cy : record :=
  mk_record (NameField.mk "Cy")
    [PhoneField.mk "+380671112233"; PhoneField.mk "+0501234567"] None.

Definition dan : record :=
  mk_record (NameField.mk "Dan") [PhoneField.mk "0931234567"] None.

Definition eve : record :=
  mk_record (NameField.mk "Eve") [] None.

Definition ann2 : record :=
  mk_record (NameField.mk "Ann") [PhoneField.mk "0440000000"] None.

Definition book4 : AddressBook :=
  mk_book [("Ann", ann); ("Cy", cy); ("Dan", dan); ("Eve", eve)] 3.

Definition json_ann : json_record :=
  mk_json (Some (Some "Ann")) None (Some [Some "+380501112233"]).

Definition json_cy : json_record :=
  mk_json (Some (Some "Cy")) (Some (Some "1990-01-02")) None.

Definition json_bob : json_record :=
  mk_json (Some (Some "Bob")) (Some (Some "2999-01-01")) (Some []).

Definition three_records : list json_record := [json_ann; json_cy; json_bob].

End Sample.

(** ** More of the standard library: case, search, splitting *)

Module PyText.

(** [c.lower()] for a code point below 256: the capital letters of ASCII
    and of Latin-1 have their small letter 32 places further. *)
Definition lower_char (c : ascii) : ascii :=
  let n := nat_of_ascii c in
  if ((65 <=? n) && (n <=? 90) || (192 <=? n) && (n <=? 214)
      || (216 <=? n) && (n <=? 222))%nat
  then ascii_of_nat (n + 32)
  else c.

(** [s.lower()] *)
Fixpoint lower (s : string) : string :=
  match s with
  | EmptyString => EmptyString
  | String c r => String (lower_char c) (lower r)
  end.

(** [s.startswith(sub)] *)
Fixpoint startswith (sub s : string) : bool :=
  match sub, s with
  | EmptyString, _ => true
  | String _ _, EmptyString => false
  | String a sub', String b s' => Ascii.eqb a b && startswith sub' s'
  end.

(** [sub in s] *)
Fixpoint contains (sub s : string) : bool :=
  startswith sub s
  || match s with
     | EmptyString => false
     | String _ r => contains sub r
     end.

(** [s.split(sep, 1)]: the part before the first [sep], and the part
    after it when there is one. *)
Fixpoint split_once (sep : ascii) (s : string) : string * option string :=
  match s with
  | EmptyString => (EmptyString, None)
  | String c r =>
      if Ascii.eqb c sep then (EmptyString, Some r)
      else let (h, t) := split_once sep r in (String c h, t)
  end.

(** [s.split(sep)] *)
Fixpoint split (sep : ascii) (s : string) : list string :=
  match s with
  | EmptyString => [EmptyString]
  | String c r =>
      if Ascii.eqb c sep then EmptyString :: split sep r
      else match split sep r with
           | h :: t => String c h :: t
           | [] => [String c EmptyString]
           end
  end.

(** [sep.join(l)] *)
Fixpoint join (sep : string) (l : list string) : string :=
  match l with
  | [] => EmptyString
  | [x] => x
  | x :: (_ :: _) as rest => (x ++ sep ++ join sep rest)%string
  end.

Definition tab : string := String "009"%char EmptyString.
Definition nl : string := String "010"%char EmptyString.

(** [str(e)] for the exceptions of the code.  The [str] of a [KeyError]
    is the [repr] of its message; the one message the code gives a
    [KeyError] holds no quote and nothing to escape. *)
Definition str_exn (e : exn) : string :=
  match e with
  | ValueError m => m
  | KeyError m => ("'" ++ m ++ "'")%string
  | AttributeError m => m
  end.

End PyText.

(** ** [Record.__str__] *)

(** [str(self)]; the call of [days_to_birthday] in it reads the clock. *)
Definition record_str (now : datetime) (self : record) : result string :=
  let line :=
    (NameField.value (name self) ++ PyText.tab ++ "| "
     ++ PyText.join ", " (map PhoneField.value (phones self)))%string in
  line <- match birthday self with
          | Some b =>
              days <- days_to_birthday now self ;;
              Ok (line ++ PyText.tab ++ "| " ++ BirthDayField.value b
                  ++ PyText.tab ++ "| next birthday in " ++ PyStr.str_int days
                  ++ " days")%string
          | None => Ok line
          end ;;
  Ok (line ++ PyText.nl)%string.

(** ** [AddressBook]: lookups *)

(** The loop of [find_by_name] over the items still to visit, with the
    list [result] built so far. *)
Fixpoint find_by_name_loop (n : string) (use_any : bool)
    (its : list (string * record)) (result : list record) : list record :=
  match its with
  | [] => result
  | (key, r) :: rest =>
      if use_any && PyText.contains (PyText.lower n) (PyText.lower key)
      then find_by_name_loop n use_any rest (result ++ [r])
      else if negb use_any && String.eqb (PyText.lower key) (PyText.lower n)
      then find_by_name_loop n use_any rest (result ++ [r])
      else find_by_name_loop n use_any rest result
  end.

Definition find_by_name (self : AddressBook) (n : string) (use_any : bool)
    : list record :=
  find_by_name_loop n use_any (data self) [].

(** The inner loop of [find_by_phone] over the phones of [r]: the record
    is appended at the first phone that matches, and the loop breaks. *)
Fixpoint find_by_phone_inner (number : string) (use_any : bool) (r : record)
    (ps : list PhoneField.t) (result : list record) : list record :=
  match ps with
  | [] => result
  | p :: rest =>
      if use_any
         && PyText.contains (PyText.lower number) (PyText.lower (PhoneField.value p))
      then result ++ [r]
      else if negb use_any
              && String.eqb (PyText.lower number) (PyText.lower (PhoneField.value p))
      then result ++ [r]
      else find_by_phone_inner number use_any r rest result
  end.

Fixpoint find_by_phone_loop (number : string) (use_any : bool)
    (its : list (string * record)) (result : list record) : list record :=
  match its with
  | [] => result
  | (_, r) :: rest =>
      find_by_phone_loop number use_any rest
        (find_by_phone_inner number use_any r (phones r) result)
  end.

Definition find_by_phone (self : AddressBook) (number : string) (use_any : bool)
    : list record :=
  find_by_phone_loop number use_any (data self) [].

(** ** The command handlers

    The handlers work on the global [book]: each takes the book and
    returns the book it leaves with what it returns.  An entry of the
    book holds a record of its own, and a record that [find_by_name]
    returns is the object stored under its key: a handler that mutates the
    records it found is a pass over the entries of the book, in key
    order, that rewrites those [find_by_name] selects. *)

Module Commands.

Definition hello (n : option string) : string :=
  match n with
  | None => "How can I help you?"
  | Some s => ("Hello " ++ s ++ ", how can I help you?")%string
  end.

(** [if b:] for an optional string. *)
Definition truthy (b : option string) : bool :=
  match b with
  | None => false
  | Some s => negb (String.eqb s "")
  end.

Definition adding (now : datetime) (book : AddressBook)
    (n phone : string) (b : option string) : AddressBook * string :=
  match (r <- Record_init (Some n) None ;;
         pf <- PhoneField.init (Some phone) ;;
         let r := add_phone r pf in
         if truthy b
         then bf <- BirthDayField.init now b ;; Ok (set_birthday r bf)
         else Ok r) with
  | Ok r => (add_record book r, "add completed")
  | Raise e => (book, PyText.str_exn e)
  end.

(** The [for] loop of [change], as a pass over the entries. *)
Fixpoint change_loop (n p : string) (d : list (string * record))
    : list (string * record) * result unit :=
  match d with
  | [] => ([], Ok tt)
  | (key, r) :: rest =>
      if String.eqb (PyText.lower key) (PyText.lower n) then
        match PhoneField.init (Some p) with
        | Raise e => (d, Raise e)
        | Ok phone =>
            let (rest', res) := change_loop n p rest in
            ((key, edit_phone r phone) :: rest', res)
        end
      else
        let (rest', res) := change_loop n p rest in ((key, r) :: rest', res)
  end.

Definition change (book : AddressBook) (n p : string) : AddressBook * string :=
  let found := find_by_name book n false in
  if (length found =? 0)%nat then (book, "Name is not found")
  else
    match change_loop n p (data book) with
    | (d, Ok _) => (mk_book d (max_page book), "Number is changed")
    | (d, Raise e) => (mk_book d (max_page book), PyText.str_exn e)
    end.

(** [info_line += str(record)] for each record: the line as the loop
    leaves it, and the exception that stopped it if one did. *)
Fixpoint render_loop (now : datetime) (found : list record) (info_line : string)
    : string * result unit :=
  match found with
  | [] => (info_line, Ok tt)
  | r :: rest =>
      match record_str now r with
      | Ok s => render_loop now rest (info_line ++ s)%string
      | Raise e => (info_line, Raise e)
      end
  end.

Definition find (now : datetime) (book : AddressBook) (n : string) : result string :=
  let found := find_by_name book n true in
  let found := if (length found =? 0)%nat then find_by_phone book n true else found in
  if (length found =? 0)%nat then Ok ("Not found record by " ++ n)%string
  else
    match render_loop now found "" with
    | (s, Ok _) => Ok s
    | (_, Raise e) => Raise e
    end.

Fixpoint show_all_loop (now : datetime) (pages : list (list record)) (p : Z)
    (info_line : string) : result string :=
  match pages with
  | [] => Ok info_line
  | page :: rest =>
      let info_line :=
        (info_line ++ "====" ++ PyText.tab ++ "page: " ++ PyStr.str_int p
         ++ PyText.tab ++ "====" ++ PyText.nl)%string in
      match render_loop now page info_line with
      | (s, Ok _) => show_all_loop now rest (p + 1) s
      | (_, Raise e) => Raise e
      end
  end.

(** [show(n)].  [int10 n] is [int(n, 10)], [None] when it raises
    [ValueError]. *)
Definition show (int10 : string -> option Z) (now : datetime)
    (book : AddressBook) (n : string) : result string :=
  if String.eqb n "all" then show_all_loop now (iter book) 1 ""
  else
    let by_name (info_line : string) : result string :=
      let found := find_by_name book n false in
      if (length found =? 0)%nat then Ok "Name is not found"
      else
        match render_loop now found info_line with
        | (s, Ok _) => Ok s
        | (_, Raise e) => Raise e
        end in
    match int10 n with
    | None => by_name ""
    | Some page_number =>
        let page_number := if page_number <? 1 then 1 else page_number in
        match getitem book page_number with
        | Raise (KeyError m) => Ok (PyText.str_exn (KeyError m))
        | Raise (ValueError _) => by_name ""
        | Raise e => Raise e
        | Ok page =>
            match render_loop now page "" with
            | (s, Ok _) => Ok s
            | (_, Raise (KeyError m)) => Ok (PyText.str_exn (KeyError m))
            | (s, Raise (ValueError _)) => by_name s
            | (_, Raise e) => Raise e
            end
        end
    end.

(** The loop of [birthday]: it returns at the first record found. *)
Fixpoint birthday_loop (now : datetime) (n b : string) (d : list (string * record))
    : option (list (string * record) * string) :=
  match d with
  | [] => None
  | (key, r) :: rest =>
      if String.eqb (PyText.lower key) (PyText.lower n) then
        match BirthDayField.init now (Some b) with
        | Ok bf => Some ((key, set_birthday r bf) :: rest, "Birthday set successfully")
        | Raise e => Some (d, PyText.str_exn e)
        end
      else
        match birthday_loop now n b rest with
        | Some (rest', message) => Some ((key, r) :: rest', message)
        | None => None
        end
  end.

Definition birthday (now : datetime) (book : AddressBook) (n b : string)
    : AddressBook * string :=
  match birthday_loop now n b (data book) with
  | Some (d, message) => (mk_book d (max_page book), message)
  | None => (book, "Name is not found")
  end.

End Commands.

(** ** The command loop *)

Module Repl.

(** What the wrapper of [input_error] does with a call: it returns a
    usage message, or calls the wrapped function with [args]. *)
Inductive dispatch : Type :=
| Usage (message : string)
| Call (args : list (option string)).

Definition input_error (command : string) (inputs : list string) : dispatch :=
  let n := length inputs in
  if String.eqb command "add" then
    if (1 <? n)%nat then Call (map Some inputs)
    else Usage "Give me name and phone please, birthday optional"
  else if String.eqb command "change" then
    if (n =? 2)%nat then Call (map Some inputs)
    else Usage "Give me name and phone please"
  else if String.eqb command "birthday" then
    if (n =? 2)%nat then Call (map Some inputs)
    else Usage "Give me name and birthday please"
  else if String.eqb command "phone" then
    if (n =? 1)%nat then Call (map Some inputs)
    else Usage "Enter user name"
  else if String.eqb command "hello" then
    match inputs with
    | first :: _ => Call [Some first]
    | [] => Call [None]
    end
  else if String.eqb command "show" then
    if (n =? 1)%nat then Call (map Some inputs)
    else Usage "Show must be with parameter `all` or name"
  else if String.eqb command "find" then
    if (n =? 1)%nat then Call (map Some inputs)
    else Usage "Find must be with one parameter (part of phone or name)"
  else Usage "Not correct validation".

(** The functions the dictionary [commands] holds. *)
Inductive handler : Type :=
| Hello | Adding | Show | Find | Change | Birthday.

(** [commands.get(command)] *)
Definition commands (command : string) : option handler :=
  if String.eqb command "hello" then Some Hello
  else if String.eqb command "hi" then Some Hello
  else if String.eqb command "add" then Some Adding
  else if String.eqb command "show" then Some Show
  else if String.eqb command "find" then Some Find
  else if String.eqb command "change" then Some Change
  else if String.eqb command "birthday" then Some Birthday
  else None.

Definition exit_commands : list string := ["good bye"; "exit"; "close"].

(** One turn of the loop of [main_example] on the line read, up to the
    call of a handler.  [Exit]: the loop prints its farewell and breaks,
    and the book is saved.  [Print]: it prints a result it has at hand
    and goes on.  [Run]: it calls the handler with [args]; it then prints
    what the handler returns and goes on, unless the handler raises,
    which leaves the loop and the program without any saving. *)
Inductive turn : Type :=
| Exit
| Print (result : string)
| Run (h : handler) (args : list (option string)).

Definition main_step (line : string) : turn :=
  let (command, data) := PyText.split_once " " (PyStr.strip line) in
  if existsb (String.eqb command) exit_commands then Exit
  else
    match commands command with
    | Some h =>
        let data := match data with
                    | Some rest => map PyStr.strip (PyText.split "," rest)
                    | None => []
                    end in
        match input_error command data with
        | Usage message => Print message
        | Call args => Run h args
        end
    | None => Print "Not correct command"
    end.

End Repl.

(** *** More sample data *)

Module Sample2.

Definition leap : record :=
  mk_record (NameField.mk "Leap") [PhoneField.mk "0501234567"]
    (Some (BirthDayField.mk "2000-02-29" (Some (mk_datetime 2000 2 29 0 0 0 0)))).

Definition book2 : AddressBook :=
  mk_book [("Ann", Sample.ann); ("ANN", Sample.ann2); ("Cy", Sample.cy)] 0.

End Sample2.

(** *** Notions the further properties are stated with *)

Fixpoint all_chars (p : ascii -> bool) (s : string) : bool :=
  match s with
  | EmptyString => true
  | String c r => p c && all_chars p r
  end.

(** The key of an entry, or a phone, matches the query of a lookup. *)
Definition query_matches (use_any : bool) (query candidate : string) : bool :=
  if use_any
  then PyText.contains (PyText.lower query) (PyText.lower candidate)
  else String.eqb (PyText.lower candidate) (PyText.lower query).

(** * Properties *)

(** ** Insertion-ordered dictionaries *)

Section Dict.

Context {V : Type}.
Implicit Types (d : list (string * V)) (k : string) (v : V).

Lemma dict_set_new d k v :
  ~ In k (map fst d) -> dict_set d k v = d ++ [(k, v)].
Proof.
  induction d as [|[k' v'] d IH]; simpl; intros Hk; [reflexivity|].
  destruct (String.eqb_spec k' k) as [->|Hne].
  - exfalso; apply Hk; now left.
  - f_equal; apply IH; intros Hin; apply Hk; now right.
Qed.

Lemma dict_set_existing d k v :
  In k (map fst d) ->
  exists pre old post,
    d = pre ++ (k, old) :: post /\ ~ In k (map fst pre)
    /\ dict_set d k v = pre ++ (k, v) :: post.
Proof.
  induction d as [|[k' v'] d IH]; simpl; intros Hk; [contradiction|].
  destruct (String.eqb_spec k' k) as [->|Hne].
  - exists [], v', d; simpl; auto.
  - destruct Hk as [Heq|Hin]; [congruence|].
    destruct (IH Hin) as (pre & old & post & -> & Hpre & ->).
    exists ((k', v') :: pre), old, post; simpl; repeat split; auto.
    intros [Heq|Hin']; [congruence | auto].
Qed.

Lemma dict_set_keys_existing d k v :
  In k (map fst d) -> map fst (dict_set d k v) = map fst d.
Proof.
  intros Hk; destruct (dict_set_existing d k v Hk) as (pre & old & post & -> & _ & ->).
  now rewrite !map_app.
Qed.

Lemma dict_set_nonempty d k v : dict_set d k v <> [].
Proof.
  destruct d as [|[k' v'] d]; simpl; [discriminate|].
  destruct (String.eqb k' k); discriminate.
Qed.

Lemma dict_set_NoDup d k v :
  NoDup (map fst d) -> NoDup (map fst (dict_set d k v)).
Proof.
  intros Hnd; destruct (in_dec string_dec k (map fst d)) as [Hin|Hout].
  - now rewrite dict_set_keys_existing.
  - rewrite dict_set_new, map_app by assumption; simpl.
    apply NoDup_app; repeat split; auto.
    + constructor; [intros [] | constructor].
    + intros x Hx [<-|[]]; auto.
Qed.

End Dict.

(** ** Fields *)

Lemma NameField_set_value_raise self v e :
  snd (NameField.set_value self v) = Raise e ->
  fst (NameField.set_value self v) = self.
Proof.
  unfold NameField.set_value.
  destruct (NameField.__validate_name__ v); simpl; [discriminate | reflexivity].
Qed.

Lemma PhoneField_set_value_raise self v e :
  snd (PhoneField.set_value self v) = Raise e ->
  fst (PhoneField.set_value self v) = self.
Proof.
  unfold PhoneField.set_value.
  destruct (PhoneField.__validate_phone__ v); simpl; [discriminate | reflexivity].
Qed.

(** A birthday whose re-assignment raises keeps its string; its parsed
    date is kept too unless the rejected string parsed. *)
Lemma BirthDayField_set_value_raise now self v e :
  snd (BirthDayField.set_value now self v) = Raise e ->
  BirthDayField.value (fst (BirthDayField.set_value now self v))
  = BirthDayField.value self
  /\ (e <> ValueError "Birthday cannot be than now" ->
      fst (BirthDayField.set_value now self v) = self).
Proof.
  unfold BirthDayField.set_value, BirthDayField.__validate_birthday__.
  destruct self as [s0 d0]; simpl.
  destruct v as [s|]; simpl.
  2: { intros [= <-]; split; [reflexivity | intros _; reflexivity]. }
  destruct (String.eqb (PyStr.strip s) "").
  { simpl; intros [= <-]; split; [reflexivity | intros _; reflexivity]. }
  destruct (PyStr.match_birthday s).
  2: { simpl; intros [= <-]; split; [reflexivity | intros _; reflexivity]. }
  destruct (fromisoformat s) as [d|e'].
  2: { simpl; intros [= <-]; split; [reflexivity | intros _; reflexivity]. }
  destruct (DateTime.gt d now); simpl; [|discriminate].
  intros [= <-]; split; [reflexivity | intros H; now elim H].
Qed.

(** C4.  The claim: a re-assignment that fails validation leaves the whole
    observable state of the field as it was, and a [BirthDayField] still
    exposes its previous parsed date through [get_datetime()].  The code at
    a birthday built from "2000-01-01" and re-assigned the future date
    "2999-01-01" (the clock at 2024-05-10 12:00): the assignment raises,
    the string stays "2000-01-01", and [get_datetime()] returns
    2999-01-01, not the date it returned before. *)
Theorem BirthDayField_failed_assignment_overwrites_date :
  exists f,
    BirthDayField.init Sample.noon_2024_05_10 (Some "2000-01-01") = Ok f
    /\ BirthDayField.get_datetime f = Some (mk_datetime 2000 1 1 0 0 0 0)
    /\ snd (BirthDayField.set_value Sample.noon_2024_05_10 f (Some "2999-01-01"))
       = Raise (ValueError "Birthday cannot be than now")
    /\ BirthDayField.value
         (fst (BirthDayField.set_value Sample.noon_2024_05_10 f (Some "2999-01-01")))
       = "2000-01-01"
    /\ BirthDayField.get_datetime
         (fst (BirthDayField.set_value Sample.noon_2024_05_10 f (Some "2999-01-01")))
       = Some (mk_datetime 2999 1 1 0 0 0 0).
Proof.
  eexists; split; [vm_compute; reflexivity|].
  repeat split.
Qed.

(** ** Records *)

(** C8.  After [edit_phone] the phone list of the record is the new phone
    alone, whatever the list held before. *)
Theorem edit_phone_single (self : record) (new_phone : PhoneField.t) :
  phones (edit_phone self new_phone) = [new_phone]
  /\ length (phones (edit_phone self new_phone)) = 1%nat
  /\ name (edit_phone self new_phone) = name self
  /\ birthday (edit_phone self new_phone) = birthday self.
Proof.
  unfold edit_phone, add_phone, phones_clear; simpl; auto.
Qed.

Lemma remove_first_code_found code pre p post :
  PhoneField.get_phone_code p = code ->
  Forall (fun q => PhoneField.get_phone_code q <> code) pre ->
  remove_first_code code (pre ++ p :: post) = pre ++ post.
Proof.
  intros Hp; induction 1 as [|q pre Hq _ IH]; simpl.
  - now rewrite Hp, String.eqb_refl.
  - destruct (String.eqb_spec (PhoneField.get_phone_code q) code);
      [contradiction | now rewrite IH].
Qed.

Lemma remove_first_code_absent code l :
  Forall (fun q => PhoneField.get_phone_code q <> code) l ->
  remove_first_code code l = l.
Proof.
  induction 1 as [|q l Hq _ IH]; simpl; [reflexivity|].
  destruct (String.eqb_spec (PhoneField.get_phone_code q) code);
    [contradiction | now rewrite IH].
Qed.

(** C5, as the code has it.  [delete_phone("0501234567")] removes the
    first phone whose normalized key is "501234567" (one stored as
    "+0501234567", say), and leaves the other phones in place; a phone
    stored as "+380501234567" has the key "380501234567", so a record
    whose phones are all stored so is left as it was. *)
Theorem delete_phone_by_normalized_key (self : record) pre p post :
  phones self = pre ++ p :: post ->
  PhoneField.get_phone_code p = "501234567" ->
  Forall (fun q => PhoneField.get_phone_code q <> "501234567") pre ->
  phones (delete_phone self "0501234567") = pre ++ post
  /\ PhoneField.get_phone_code (PhoneField.mk "+0501234567") = "501234567"
  /\ PhoneField.get_phone_code (PhoneField.mk "+380501234567") = "380501234567"
  /\ forall other : record,
       Forall (fun q => PhoneField.value q = "+380501234567") (phones other) ->
       delete_phone other "0501234567" = other.
Proof.
  intros Hphones Hp Hpre; repeat split.
  - unfold delete_phone; simpl; rewrite Hphones.
    now apply remove_first_code_found.
  - intros other Hall; unfold delete_phone; simpl.
    rewrite remove_first_code_absent; [now destruct other|].
    eapply Forall_impl; [|exact Hall].
    intros [v]; simpl; intros ->; vm_compute; discriminate.
Qed.

Lemma delete_phone_by_normalized_key_witness :
  phones (delete_phone Sample.cy "0501234567") = [PhoneField.mk "+380671112233"].
Proof.
  apply (delete_phone_by_normalized_key Sample.cy
           [PhoneField.mk "+380671112233"] (PhoneField.mk "+0501234567") []).
  - reflexivity.
  - reflexivity.
  - repeat constructor; vm_compute; discriminate.
Defined.

(** C5, as the specification words it, fails: the phone stored as
    "+380501234567" is still there after [delete_phone("0501234567")]. *)
Lemma delete_phone_keeps_380 :
  phones Sample.ann = [PhoneField.mk "+380501234567"]
  /\ phones (delete_phone Sample.ann "0501234567")
     = [PhoneField.mk "+380501234567"].
Proof. split; reflexivity. Qed.

(** *** [days_to_birthday] on the birthday itself *)

Lemma _is_leap_spec y :
  _days_before_year (y + 1) - _days_before_year y
  = 365 + (if _is_leap y then 1 else 0).
Proof.
  unfold _days_before_year, _is_leap.
  replace (y + 1 - 1) with y by lia.
  destruct (Z.eqb_spec (y mod 4) 0), (Z.eqb_spec (y mod 100) 0),
    (Z.eqb_spec (y mod 400) 0); simpl;
    Z.div_mod_to_equations; lia.
Qed.

Lemma year_length y m d :
  1 <= m <= 12 ->
  365 <= _ymd2ord (y + 1) m d - _ymd2ord y m d <= 366.
Proof.
  intros Hm; unfold _ymd2ord, _days_before_month.
  pose proof (_is_leap_spec y) as Hy.
  destruct (Z.ltb_spec 2 m); simpl;
    destruct (_is_leap y), (_is_leap (y + 1)); lia.
Qed.

Lemma _days_in_month_next_year y m d :
  1 <= m <= 12 -> ~ (m = 2 /\ d = 29) ->
  d <= _days_in_month y m -> d <= _days_in_month (y + 1) m.
Proof.
  intros Hm Hfeb; unfold _days_in_month.
  destruct (Z.eqb_spec m 2) as [->|Hne]; simpl; [|auto].
  destruct (_is_leap y), (_is_leap (y + 1)); simpl; lia.
Qed.

Lemma new_valid y m d :
  MINYEAR <= y <= MAXYEAR -> 1 <= m <= 12 -> 1 <= d <= _days_in_month y m ->
  DateTime.new y m d = Ok (mk_datetime y m d 0 0 0 0).
Proof.
  intros Hy Hm Hd; unfold DateTime.new.
  replace ((MINYEAR <=? y) && (y <=? MAXYEAR)) with true by (symmetry; apply andb_true_iff; lia).
  replace ((1 <=? m) && (m <=? 12)) with true by (symmetry; apply andb_true_iff; lia).
  replace ((1 <=? d) && (d <=? _days_in_month y m)) with true
    by (symmetry; apply andb_true_iff; lia).
  reflexivity.
Qed.

(** Midnight of a day is never after a moment of that day. *)
Lemma midnight_not_gt now :
  0 <= hour now -> 0 <= minute now -> 0 <= second now -> 0 <= microsecond now ->
  DateTime.gt (mk_datetime (year now) (month now) (day now) 0 0 0 0) now = false.
Proof.
  intros Hh Hm Hs Hu; unfold DateTime.gt, fields; simpl.
  rewrite !Z.compare_refl.
  destruct (hour now); [| reflexivity | lia].
  destruct (minute now); [| reflexivity | lia].
  destruct (second now); [| reflexivity | lia].
  destruct (microsecond now); [reflexivity | reflexivity | lia].
Qed.

(** On the birthday the method measures the distance to the next year's
    occurrence, less the time of day that has passed: 364 to 366 days,
    never 0. *)
Lemma days_to_birthday_on_the_day now self b bd :
  DateTime.valid now -> year now < MAXYEAR ->
  birthday self = Some b -> BirthDayField.get_datetime b = Some bd ->
  month bd = month now -> day bd = day now ->
  ~ (month now = 2 /\ day now = 29) ->
  exists n, days_to_birthday now self = Ok n /\ 364 <= n <= 366.
Proof.
  intros (Hy & Hm & Hd & Hh & Hmi & Hs & Hu) Hmax Hb Hbd Hmo Hda Hfeb.
  unfold days_to_birthday; rewrite Hb, Hbd, Hmo, Hda.
  rewrite new_valid by auto; simpl.
  rewrite new_valid;
    [| unfold MINYEAR, MAXYEAR in *; lia | auto
     | split; [lia | apply _days_in_month_next_year; lia] ].
  simpl; rewrite midnight_not_gt by lia.
  eexists; split; [reflexivity|].
  pose proof (year_length (year now) (month now) (day now) Hm) as Hlen.
  unfold DateTime.sub_days, toordinal, seconds_of_day; simpl.
  set (D := _ymd2ord (year now + 1) (month now) (day now)
            - _ymd2ord (year now) (month now) (day now)) in *.
  split.
  - apply Z.div_le_lower_bound; lia.
  - apply Z.div_le_upper_bound; lia.
Qed.

(** A birthday on 29 February: one of the two dates the method builds
    does not exist, and the call raises whatever the day. *)
Lemma days_to_birthday_leap_day now self b bd :
  birthday self = Some b -> BirthDayField.get_datetime b = Some bd ->
  month bd = 2 -> day bd = 29 ->
  exists e, days_to_birthday now self = Raise e.
Proof.
  intros Hb Hbd Hmo Hda.
  unfold days_to_birthday; rewrite Hb, Hbd, Hmo, Hda.
  assert (Hleap : _is_leap (year now) = false \/ _is_leap (year now + 1) = false).
  { unfold _is_leap.
    destruct (Z.eqb_spec (year now mod 4) 0) as [H0|H0]; [right | now left].
    destruct (Z.eqb_spec ((year now + 1) mod 4) 0) as [H1|H1]; [|reflexivity].
    exfalso; Z.div_mod_to_equations; lia. }
  unfold DateTime.new at 1.
  destruct (negb ((MINYEAR <=? year now) && (year now <=? MAXYEAR)));
    [eexists; reflexivity|].
  simpl (negb ((1 <=? 2) && (2 <=? 12))); cbv iota.
  unfold _days_in_month at 1; simpl (2 =? 2); simpl andb.
  destruct (_is_leap (year now)) eqn:Hl1.
  2: { simpl; eexists; reflexivity. }
  simpl. unfold DateTime.new.
  destruct (negb ((MINYEAR <=? year now + 1) && (year now + 1 <=? MAXYEAR)));
    [eexists; reflexivity|].
  simpl (negb ((1 <=? 2) && (2 <=? 12))); cbv iota.
  unfold _days_in_month; simpl (2 =? 2); simpl andb.
  destruct Hleap as [Hl|Hl]; [congruence|]; rewrite Hl.
  simpl; eexists; reflexivity.
Qed.

(** C1.  The claim: when today is the birthday, [days_to_birthday()]
    returns 0.  The code on 2024-05-10 at 12:00 for a record born on
    2000-05-10 returns 364; on the eve, 2024-05-09 at 12:00, it
    returns 0. *)
Theorem days_to_birthday_on_birthday_is_364 :
  month Sample.noon_2024_05_10 = 5 /\ day Sample.noon_2024_05_10 = 10
  /\ BirthDayField.get_datetime Sample.born_2000_05_10
     = Some (mk_datetime 2000 5 10 0 0 0 0)
  /\ days_to_birthday Sample.noon_2024_05_10 Sample.ann = Ok 364
  /\ days_to_birthday (mk_datetime 2024 5 9 12 0 0 0) Sample.ann = Ok 0.
Proof. repeat split. Qed.

(** ** The book: [add_record] *)

Lemma add_record_wf self r : book_wf self -> book_wf (add_record self r).
Proof.
  intros [Hkeys Hnd]; split.
  - unfold add_record; simpl.
    set (k := NameField.value (name r)).
    assert (Hr : fst (k, r) = NameField.value (name (snd (k, r)))) by reflexivity.
    revert Hkeys Hr; generalize (data self); clear.
    induction l as [|[k' v'] l IH]; simpl; intros Hl Hr.
    + constructor; auto.
    + inversion Hl; subst.
      destruct (String.eqb k' k); constructor; auto.
  - unfold keys, add_record; simpl; now apply dict_set_NoDup.
Qed.

(** ** The book: pages *)

Lemma iter_loop_concat mp its page :
  concat (iter_loop mp its page) = page ++ map snd its.
Proof.
  revert page; induction its as [|[k r] its IH]; intros page; simpl.
  - destruct page; simpl; now rewrite ?app_nil_r.
  - destruct (Z.of_nat (length (page ++ [r])) =? mp); simpl; rewrite IH.
    + now rewrite <- app_assoc.
    + now rewrite <- app_assoc.
Qed.

(** The sizes of the pages depend on the number of records only. *)
Lemma iter_loop_sizes mp its its' page page' :
  length its = length its' -> length page = length page' ->
  map (@length record) (iter_loop mp its page)
  = map (@length record) (iter_loop mp its' page').
Proof.
  revert its' page page'; induction its as [|[k r] its IH];
    intros [|[k' r'] its'] page page' Hits Hpage; simpl in *; try discriminate.
  - destruct page, page'; simpl in *; try discriminate; now rewrite ?Hpage.
  - assert (Hlen : length (page ++ [r]) = length (page' ++ [r']))
      by (rewrite !length_app; simpl; lia).
    rewrite Hlen.
    destruct (Z.of_nat (length (page' ++ [r'])) =? mp); simpl.
    + rewrite Hlen; f_equal; apply IH; [lia | reflexivity].
    + apply IH; [lia | exact Hlen].
Qed.

Section Pages.

Variable mp : Z.
Hypothesis mp_pos : 0 < mp.

Lemma iter_loop_count its page :
  Z.of_nat (length page) < mp ->
  Z.of_nat (length (iter_loop mp its page))
  = (Z.of_nat (length page) + Z.of_nat (length its) + mp - 1) / mp.
Proof.
  revert page; induction its as [|[k r] its IH]; intros page Hpage.
  - destruct page as [|r0 page]; simpl iter_loop.
    + simpl. symmetry; apply Z.div_small; lia.
    + rewrite Z.add_0_r.
      change (Z.of_nat (length [r0 :: page])) with 1.
      simpl length in *.
      apply Z.div_unique with (r := Z.of_nat (S (length page)) - 1); lia.
  - simpl iter_loop.
    assert (Hlen : Z.of_nat (length (page ++ [r])) = Z.of_nat (length page) + 1)
      by (rewrite length_app; simpl; lia).
    rewrite Hlen.
    destruct (Z.eqb_spec (Z.of_nat (length page) + 1) mp) as [Heq|Hne].
    + simpl length. rewrite Nat2Z.inj_succ, IH by (simpl; lia).
      simpl length.
      replace (Z.of_nat (length page) + Z.of_nat (S (length its)) + mp - 1)
        with (1 * mp + (Z.of_nat 0 + Z.of_nat (length its) + mp - 1)) by lia.
      rewrite Z.div_add_l by lia. lia.
    + rewrite IH by lia. f_equal. simpl length. lia.
Qed.

Lemma iter_loop_bounds its page :
  Z.of_nat (length page) < mp ->
  Forall (fun pg => 1 <= Z.of_nat (length pg) <= mp) (iter_loop mp its page).
Proof.
  revert page; induction its as [|[k r] its IH]; intros page Hpage.
  - destruct page as [|r0 page]; simpl iter_loop; constructor; [|constructor].
    simpl length in *; lia.
  - simpl iter_loop.
    assert (Hlen : Z.of_nat (length (page ++ [r])) = Z.of_nat (length page) + 1)
      by (rewrite length_app; simpl; lia).
    destruct (Z.eqb_spec (Z.of_nat (length (page ++ [r]))) mp) as [Heq|Hne].
    + constructor; [lia | apply IH; simpl; lia].
    + apply IH; lia.
Qed.

(** Every page but the last is full, and the last holds the remainder. *)
Lemma iter_loop_last its page pages last :
  Z.of_nat (length page) < mp ->
  iter_loop mp its page = pages ++ [last] ->
  Forall (fun pg => Z.of_nat (length pg) = mp) pages
  /\ Z.of_nat (length last)
     = let m := (Z.of_nat (length page) + Z.of_nat (length its)) mod mp in
       if m =? 0 then mp else m.
Proof.
  revert page pages; induction its as [|[k r] its IH]; intros page pages Hpage.
  - destruct page as [|r0 page]; simpl iter_loop; intros Heq.
    + destruct pages; discriminate.
    + destruct pages as [|pg pages]; [| destruct pages; discriminate].
      injection Heq as <-. split; [constructor|].
      rewrite Z.add_0_r, Z.mod_small by (simpl length in *; lia).
      cbv zeta.
      destruct (Z.eqb_spec (Z.of_nat (length (r0 :: page))) 0);
        [simpl length in *; lia | reflexivity].
  - simpl iter_loop.
    assert (Hlen : Z.of_nat (length (page ++ [r])) = Z.of_nat (length page) + 1)
      by (rewrite length_app; simpl; lia).
    assert (Hn : Z.of_nat (length ((k, r) :: its)) = Z.of_nat (length its) + 1)
      by (simpl length; lia).
    rewrite Hn.
    destruct (Z.eqb_spec (Z.of_nat (length (page ++ [r]))) mp) as [Heq|Hne];
      intros Hpages.
    + replace (Z.of_nat (length page) + (Z.of_nat (length its) + 1))
        with (Z.of_nat (length its) + 1 * mp) by lia.
      rewrite Z.mod_add by lia.
      destruct pages as [|pg pages].
      * simpl in Hpages. injection Hpages as <- Hrest.
        pose proof (iter_loop_concat mp its []) as Hc.
        rewrite Hrest in Hc; simpl in Hc.
        destruct its; [|discriminate].
        split; [constructor|]. simpl length at 2. simpl Z.of_nat at 2.
        rewrite Z.mod_0_l by lia. simpl. exact Heq.
      * simpl in Hpages. injection Hpages as <- Hrest.
        destruct (IH [] pages) as [Hfull Hlast]; [simpl; lia | exact Hrest |].
        split; [constructor; auto | exact Hlast].
    + destruct (IH (page ++ [r]) pages) as [Hfull Hlast]; [lia | exact Hpages |].
      split; [exact Hfull|].
      rewrite Hlast, Hlen.
      replace (Z.of_nat (length page) + 1 + Z.of_nat (length its))
        with (Z.of_nat (length page) + (Z.of_nat (length its) + 1)) by lia.
      reflexivity.
Qed.

End Pages.

Lemma getitem_loop_out pages page_number p :
  page_number < p \/ p + Z.of_nat (length pages) <= page_number ->
  getitem_loop pages page_number p
  = Raise (KeyError ("index out of range in book, max page: "
                     ++ PyStr.str_int (p + Z.of_nat (length pages)))%string).
Proof.
  revert p; induction pages as [|pg pages IH]; intros p Hout; simpl getitem_loop.
  - simpl length; now rewrite Z.add_0_r.
  - destruct (Z.eqb_spec page_number p) as [->|Hne]; [exfalso; simpl length in *; lia|].
    rewrite IH by (simpl length in *; lia).
    replace (p + 1 + Z.of_nat (length pages))
      with (p + Z.of_nat (length (pg :: pages))) by (simpl length; lia).
    reflexivity.
Qed.

Lemma getitem_loop_in pages page_number p :
  p <= page_number < p + Z.of_nat (length pages) ->
  getitem_loop pages page_number p
  = Ok (nth (Z.to_nat (page_number - p)) pages []).
Proof.
  revert p; induction pages as [|pg pages IH]; intros p Hin; simpl getitem_loop.
  - simpl length in *; lia.
  - destruct (Z.eqb_spec page_number p) as [->|Hne].
    + now rewrite Z.sub_diag.
    + rewrite IH by (simpl length in *; lia).
      replace (Z.to_nat (page_number - p)) with (S (Z.to_nat (page_number - (p + 1))))
        by lia.
      reflexivity.
Qed.

(** C6.  A book of [N] records with a page size [P] of at least one:
    iteration yields ceil(N/P) pages (the least number of pages of [P]
    records that hold [N]), each of one to [P] records, which
    put end to end are the records in key order; every page before the
    last holds [P] records and the last holds [N mod P] of them, or [P]
    when the remainder is zero; indexing with 0, or with a number above
    the page count, raises [KeyError], and indexing with a number from 1
    to the page count returns that page. *)
Theorem pagination (self : AddressBook) :
  let N := Z.of_nat (length (data self)) in
  let P := max_page self in
  let count := Z.of_nat (length (iter self)) in
  0 < P ->
  count = (N + P - 1) / P
  /\ (count - 1) * P < N <= count * P
  /\ Forall (fun page => 1 <= Z.of_nat (length page) <= P) (iter self)
  /\ concat (iter self) = map snd (data self)
  /\ (forall pages last, iter self = pages ++ [last] ->
      Forall (fun page => Z.of_nat (length page) = P) pages
      /\ Z.of_nat (length last) = if N mod P =? 0 then P else N mod P)
  /\ (exists e, getitem self 0 = Raise (KeyError e))
  /\ (forall k, count < k -> exists e, getitem self k = Raise (KeyError e))
  /\ (forall k, 1 <= k <= count ->
      getitem self k = Ok (nth (Z.to_nat (k - 1)) (iter self) [])).
Proof.
  intros N P count HP; unfold count, N, P, iter, getitem, iter, items in *.
  assert (Hcount : Z.of_nat (length (iter_loop (max_page self) (data self) []))
                   = (Z.of_nat (length (data self)) + max_page self - 1)
                     / max_page self)
    by now rewrite iter_loop_count by (simpl; lia).
  split; [| split; [| split; [| split; [| split; [| split; [| split]]]]]].
  - exact Hcount.
  - rewrite Hcount; Z.div_mod_to_equations; nia.
  - apply iter_loop_bounds; simpl; lia.
  - apply iter_loop_concat.
  - intros pages last Hpages.
    destruct (iter_loop_last (max_page self) HP (data self) [] pages last)
      as [Hfull Hlast]; [simpl; lia | exact Hpages |].
    split; [exact Hfull | exact Hlast].
  - eexists; apply getitem_loop_out; lia.
  - intros k Hk; eexists; apply getitem_loop_out; lia.
  - intros k Hk; apply getitem_loop_in; lia.
Qed.

Lemma pagination_witness :
  0 < max_page Sample.book4
  /\ Z.of_nat (length (iter Sample.book4)) = (4 + 3 - 1) / 3
  /\ concat (iter Sample.book4) = [Sample.ann; Sample.cy; Sample.dan; Sample.eve]
  /\ exists e, getitem Sample.book4 0 = Raise (KeyError e).
Proof.
  destruct (pagination Sample.book4 eq_refl)
    as (Hcount & _ & _ & Hconcat & _ & Hzero & _).
  split; [reflexivity|].
  split; [exact Hcount|].
  split; [exact Hconcat | exact Hzero].
Defined.

(** C10.  [add_record] with a name the book already holds: the new record
    takes the place of the old one, the keys and their order are as
    before, and so are the pages but for the record replaced. *)
Theorem add_record_existing_name_keeps_position (self : AddressBook) (r : record) :
  In (NameField.value (name r)) (keys self) ->
  exists pre old post,
    data self = pre ++ (NameField.value (name r), old) :: post
    /\ ~ In (NameField.value (name r)) (map fst pre)
    /\ data (add_record self r) = pre ++ (NameField.value (name r), r) :: post
    /\ keys (add_record self r) = keys self
    /\ concat (iter (add_record self r)) = map snd pre ++ r :: map snd post
    /\ map (@length record) (iter (add_record self r))
       = map (@length record) (iter self).
Proof.
  intros Hin.
  destruct (dict_set_existing (data self) _ r Hin) as (pre & old & post & Hd & Hpre & Hset).
  exists pre, old, post; unfold keys, iter, items, add_record; simpl.
  rewrite Hset; repeat split; auto.
  - rewrite Hd, !map_app; reflexivity.
  - rewrite iter_loop_concat, map_app; reflexivity.
  - apply iter_loop_sizes; [|reflexivity].
    rewrite Hd, !length_app; reflexivity.
Qed.

Lemma add_record_existing_name_keeps_position_witness :
  In "Ann" (keys Sample.book4)
  /\ keys (add_record Sample.book4 Sample.ann2) = keys Sample.book4
  /\ map (@length record) (iter (add_record Sample.book4 Sample.ann2))
     = map (@length record) (iter Sample.book4).
Proof.
  assert (Hin : In (NameField.value (name Sample.ann2)) (keys Sample.book4))
    by (simpl; auto).
  split; [exact Hin|].
  destruct (add_record_existing_name_keeps_position Sample.book4 Sample.ann2 Hin)
    as (pre & old & post & _ & _ & _ & Hkeys & _ & Hsizes).
  split; [exact Hkeys | exact Hsizes].
Defined.

(** ** The book: loading *)

(** C9.  A file that is not valid JSON: the call returns the message of
    the decoder, and the book is the book it was. *)
Theorem load_malformed_keeps_book (now : datetime) (self : AddressBook) (e : string) :
  load_from_file now self (Malformed e) = (self, Ok (Some e))
  /\ data (fst (load_from_file now self (Malformed e))) = data self.
Proof. split; reflexivity. Qed.

Lemma NameField_init_ValueError n e :
  NameField.init n = Raise e -> exists m, e = ValueError m.
Proof.
  unfold NameField.init, NameField.__validate_name__.
  destruct n as [s|]; simpl; [destruct (String.eqb (PyStr.strip s) "")|]; simpl;
    intros [= <-]; eexists; reflexivity.
Qed.

Lemma PhoneField_init_ValueError p e :
  PhoneField.init p = Raise e -> exists m, e = ValueError m.
Proof.
  unfold PhoneField.init, PhoneField.__validate_phone__.
  destruct p as [s|]; simpl;
    [destruct (String.eqb (PyStr.strip s) ""); [|destruct (PyStr.match_phone s)]|];
    simpl; intros [= <-]; eexists; reflexivity.
Qed.

Lemma new_ValueError y m d e :
  DateTime.new y m d = Raise e -> exists msg, e = ValueError msg.
Proof.
  unfold DateTime.new.
  repeat match goal with |- context [if ?b then _ else _] => destruct b end;
    intros [= <-]; eexists; reflexivity.
Qed.

Lemma fromisoformat_ValueError s e :
  fromisoformat s = Raise e -> exists m, e = ValueError m.
Proof.
  unfold fromisoformat.
  destruct (_ && _); [| intros [= <-]; eexists; reflexivity].
  destruct (PyStr.int_digits 0 (substring 0 4 s));
    [| intros [= <-]; eexists; reflexivity].
  destruct (PyStr.int_digits 0 (substring 5 2 s));
    [| intros [= <-]; eexists; reflexivity].
  destruct (PyStr.int_digits 0 (substring 8 2 s));
    [| intros [= <-]; eexists; reflexivity].
  apply new_ValueError.
Qed.

Lemma BirthDayField_init_ValueError now b e :
  BirthDayField.init now b = Raise e -> exists m, e = ValueError m.
Proof.
  unfold BirthDayField.init, BirthDayField.__validate_birthday__.
  destruct b as [s|]; [| intros [= <-]; eexists; reflexivity].
  destruct (String.eqb (PyStr.strip s) ""); [intros [= <-]; eexists; reflexivity|].
  destruct (PyStr.match_birthday s); [| intros [= <-]; eexists; reflexivity].
  destruct (fromisoformat s) as [d|e'] eqn:Hiso.
  - destruct (DateTime.gt d now); [intros [= <-]; eexists; reflexivity | discriminate].
  - intros [= <-]; eapply fromisoformat_ValueError; eassumption.
Qed.

Lemma load_phones_ValueError ps r e :
  load_phones r ps = Raise e -> exists m, e = ValueError m.
Proof.
  revert r; induction ps as [|p ps IH]; intros r; simpl; [discriminate|].
  destruct (PhoneField.init p) as [pf|e'] eqn:Hp; simpl.
  - apply IH.
  - intros [= <-]; eapply PhoneField_init_ValueError; eassumption.
Qed.

(** Whatever the [try] of [load_from_file] raises is a [ValueError]. *)
Lemma rebuild_ValueError now j e :
  rebuild now j = Raise e -> exists m, e = ValueError m.
Proof.
  unfold rebuild, Record_init.
  destruct (j_name j) as [n|]; [|discriminate].
  destruct (NameField.init n) as [nf|e'] eqn:Hn; simpl;
    [| intros [= <-]; eapply NameField_init_ValueError; eassumption].
  destruct (j_birthday j) as [b|]; simpl.
  - destruct (BirthDayField.init now b) as [bf|e'] eqn:Hb; simpl;
      [| intros [= <-]; eapply BirthDayField_init_ValueError; eassumption].
    destruct (j_phones j) as [ps|]; simpl; [|discriminate].
    destruct (load_phones _ ps) as [r|e'] eqn:Hps; simpl; [discriminate|].
    intros [= <-]; eapply load_phones_ValueError; eassumption.
  - destruct (j_phones j) as [ps|]; simpl; [|discriminate].
    destruct (load_phones _ ps) as [r|e'] eqn:Hps; simpl; [discriminate|].
    intros [= <-]; eapply load_phones_ValueError; eassumption.
Qed.

Lemma rebuild_unnamed now j :
  rebuild now j = Ok None <-> j_name j = None.
Proof.
  unfold rebuild; destruct (j_name j) as [n|]; [|tauto].
  split; [|discriminate].
  destruct (Record_init n None); simpl; [|discriminate].
  destruct (match j_birthday j with Some _ => _ | None => _ end); simpl; [|discriminate].
  destruct (match j_phones j with Some _ => _ | None => _ end); simpl; discriminate.
Qed.

(** [load_from_file] returns: no exception leaves it. *)
Lemma load_loop_returns now js self index :
  exists book' answer, load_loop now self index js = (book', Ok answer).
Proof.
  revert self; induction js as [|j js IH]; intros self; simpl.
  - eauto.
  - destruct (rebuild now j) as [[r|]|e] eqn:Hj; auto.
    destruct (rebuild_ValueError _ _ _ Hj) as [m ->]; eauto.
Qed.

(** A load that reports a failure stopped at some element: the loop had
    run over the elements before it, and the message carries
    [record_index] as it was at the start. *)
Lemma load_loop_failed now js self index book' message :
  load_loop now self index js = (book', Ok (Some message)) ->
  exists pre bad post e,
    js = pre ++ bad :: post
    /\ rebuild now bad = Raise (ValueError e)
    /\ message = ("Validation error in " ++ PyStr.str_int index
                  ++ " record: " ++ e)%string
    /\ load_loop now self index pre = (book', Ok None).
Proof.
  revert self; induction js as [|j js IH]; intros self; simpl; [discriminate|].
  destruct (rebuild now j) as [[r|]|e] eqn:Hj.
  - intros H; destruct (IH _ H) as (pre & bad & post & e & -> & Hbad & Hmsg & Hpre).
    exists (j :: pre), bad, post, e; simpl; rewrite Hj; auto.
  - intros H; destruct (IH _ H) as (pre & bad & post & e & -> & Hbad & Hmsg & Hpre).
    exists (j :: pre), bad, post, e; simpl; rewrite Hj; auto.
  - destruct e as [m|m|m]; intros [= <- <-].
    exists [], j, js, m; simpl; auto.
Qed.

Lemma load_loop_nonempty now js self index book' answer :
  load_loop now self index js = (book', answer) ->
  data self <> [] -> data book' <> [].
Proof.
  revert self; induction js as [|j js IH]; intros self; simpl.
  - now intros [= <- _].
  - destruct (rebuild now j) as [[r|]|e] eqn:Hj.
    + intros H _; apply (IH _ H); unfold add_record; simpl; apply dict_set_nonempty.
    + apply IH.
    + destruct e; now intros [= <- _].
Qed.

Lemma load_loop_empty now js self index book' :
  load_loop now self index js = (book', Ok None) ->
  data book' = [] <-> data self = [] /\ Forall (fun j => j_name j = None) js.
Proof.
  revert self; induction js as [|j js IH]; intros self; simpl.
  - intros [= <-]; split; [auto | tauto].
  - destruct (rebuild now j) as [[r|]|e] eqn:Hj.
    + intros H; split.
      * intros Hempty; exfalso.
        apply (load_loop_nonempty _ _ _ _ _ _ H); [|exact Hempty].
        unfold add_record; simpl; apply dict_set_nonempty.
      * intros [_ Hall]; inversion Hall as [|? ? Hname _]; subst.
        apply rebuild_unnamed with (now := now) in Hname; congruence.
    + intros H; rewrite (IH _ H).
      apply rebuild_unnamed in Hj.
      split.
      * intros [Hself Hall]; split; [exact Hself | constructor; assumption].
      * intros [Hself Hall]; split; [exact Hself | now inversion Hall].
    + destruct e; discriminate.
Qed.

(** Whatever element fails, the message names record 0. *)
Lemma load_from_file_reports_index_0 now self js book' message :
  load_from_file now self (Decoded js) = (book', Ok (Some message)) ->
  reports_index 0 message.
Proof.
  intros H; apply load_loop_failed in H.
  destruct H as (pre & bad & post & e & _ & _ & -> & _).
  exists e; reflexivity.
Qed.

(** The first element of the file whose rebuilding raises. *)
Lemma first_failure now js :
  (exists bad e, In bad js /\ rebuild now bad = Raise e) ->
  exists pre bad post e,
    js = pre ++ bad :: post
    /\ Forall (fun j => exists o, rebuild now j = Ok o) pre
    /\ rebuild now bad = Raise (ValueError e).
Proof.
  induction js as [|j js IH]; intros (bad & e & Hin & Hbad); [contradiction|].
  destruct (rebuild now j) as [o|e'] eqn:Hj.
  - destruct Hin as [->|Hin]; [congruence|].
    destruct IH as (pre & bad' & post & e'' & -> & Hpre & Hbad'); [eauto|].
    exists (j :: pre), bad', post, e''; repeat split; auto.
    constructor; eauto.
  - destruct (rebuild_ValueError _ _ _ Hj) as [m ->].
    exists [], j, js, m; repeat split; auto.
Qed.

(** The loop runs over the elements that rebuild and stops at the first
    that raises: it returns then, with the book as the elements before
    have left it. *)
Lemma load_loop_stops now pre bad post self index e :
  Forall (fun j => exists o, rebuild now j = Ok o) pre ->
  rebuild now bad = Raise (ValueError e) ->
  exists book',
    load_loop now self index pre = (book', Ok None)
    /\ load_loop now self index (pre ++ bad :: post)
       = (book', Ok (Some ("Validation error in " ++ PyStr.str_int index
                           ++ " record: " ++ e)%string)).
Proof.
  intros Hpre Hbad; revert self.
  induction Hpre as [|j pre [o Hj] _ IH]; intros self; simpl.
  - rewrite Hbad; eauto.
  - rewrite Hj; destruct o as [r|]; apply IH.
Qed.

(** C2, as the code has it.  A load in which the rebuilding of some
    element raises aborts at the first such element and returns a
    message.  The book has lost what it held before the call and holds
    the records of the elements before that one: it is the book that a
    load of those elements alone gives, whatever it held before.  It is
    empty exactly when none of those elements has a name. *)
Theorem failed_load_keeps_records_before_failure
    (now : datetime) (self : AddressBook) (js : list json_record) :
  (exists bad e, In bad js /\ rebuild now bad = Raise e) ->
  exists pre bad post e message book',
    js = pre ++ bad :: post
    /\ Forall (fun j => exists o, rebuild now j = Ok o) pre
    /\ rebuild now bad = Raise (ValueError e)
    /\ load_from_file now self (Decoded js) = (book', Ok (Some message))
    /\ load_from_file now (AddressBook_init (Some (max_page self))) (Decoded pre)
       = (book', Ok None)
    /\ (data book' = [] <-> Forall (fun j => j_name j = None) pre).
Proof.
  intros Hcause.
  destruct (first_failure now js Hcause) as (pre & bad & post & e & -> & Hpre & Hbad).
  destruct (load_loop_stops now pre bad post (mk_book [] (max_page self)) 0 e Hpre Hbad)
    as (book' & Hload & Hstop).
  exists pre, bad, post, e; eexists; exists book'.
  split; [reflexivity|]. split; [exact Hpre|]. split; [exact Hbad|].
  split; [exact Hstop|]. split; [exact Hload|].
  split.
  - intros Hempty; now apply (load_loop_empty _ _ _ _ _ Hload).
  - intros Hall; apply (load_loop_empty _ _ _ _ _ Hload); auto.
Qed.

Lemma failed_load_keeps_records_before_failure_witness :
  exists pre bad post e message book',
    Sample.three_records = pre ++ bad :: post
    /\ Forall (fun j => exists o, rebuild Sample.noon_2024_05_10 j = Ok o) pre
    /\ rebuild Sample.noon_2024_05_10 bad = Raise (ValueError e)
    /\ load_from_file Sample.noon_2024_05_10 Sample.book4
         (Decoded Sample.three_records)
       = (book', Ok (Some message))
    /\ load_from_file Sample.noon_2024_05_10
         (AddressBook_init (Some (max_page Sample.book4))) (Decoded pre)
       = (book', Ok None)
    /\ (data book' = [] <-> Forall (fun j => j_name j = None) pre).
Proof.
  apply (failed_load_keeps_records_before_failure Sample.noon_2024_05_10
           Sample.book4 Sample.three_records).
  exists Sample.json_bob, (ValueError "Birthday cannot be than now").
  split; [simpl; auto | vm_compute; reflexivity].
Defined.

(** C2, as the specification words it, fails: the load of three elements
    whose third holds a future birthday reports the failure and leaves
    the first two records in the book. *)
Lemma failed_load_leaves_records :
  snd (load_from_file Sample.noon_2024_05_10 Sample.book4
         (Decoded Sample.three_records))
  = Ok (Some "Validation error in 0 record: Birthday cannot be than now")
  /\ keys (fst (load_from_file Sample.noon_2024_05_10 Sample.book4
                  (Decoded Sample.three_records)))
     = ["Ann"; "Cy"]
  /\ data (fst (load_from_file Sample.noon_2024_05_10 Sample.book4
                  (Decoded Sample.three_records)))
     <> [].
Proof.
  split; [vm_compute; reflexivity|].
  split; [vm_compute; reflexivity|].
  vm_compute; discriminate.
Qed.

(** C3.  The claim: the message of a failed load reports the index of the
    failing record, 2 or 3 for the third one.  The code on a file whose
    third record holds the birthday "2999-01-01": the first two elements
    rebuild, the third raises, and the message names record 0. *)
Theorem failed_load_reports_index_0 :
  (exists r, rebuild Sample.noon_2024_05_10 Sample.json_ann = Ok (Some r))
  /\ (exists r, rebuild Sample.noon_2024_05_10 Sample.json_cy = Ok (Some r))
  /\ rebuild Sample.noon_2024_05_10 Sample.json_bob
     = Raise (ValueError "Birthday cannot be than now")
  /\ snd (load_from_file Sample.noon_2024_05_10 (AddressBook_init None)
            (Decoded Sample.three_records))
     = Ok (Some "Validation error in 0 record: Birthday cannot be than now")
  /\ reports_index 0 "Validation error in 0 record: Birthday cannot be than now"
  /\ ~ reports_index 2 "Validation error in 0 record: Birthday cannot be than now"
  /\ ~ reports_index 3 "Validation error in 0 record: Birthday cannot be than now".
Proof.
  split; [eexists; vm_compute; reflexivity|].
  split; [eexists; vm_compute; reflexivity|].
  split; [vm_compute; reflexivity|].
  split; [vm_compute; reflexivity|].
  split; [exists "Birthday cannot be than now"; reflexivity|].
  split; intros [e He]; vm_compute in He; discriminate.
Qed.

(** ** The book: saving, then loading *)

Lemma NameField_init_accepted s :
  accepted (NameField.init (Some s)) = true ->
  NameField.init (Some s) = Ok (NameField.mk s).
Proof.
  unfold NameField.init, NameField.__validate_name__.
  destruct (String.eqb (PyStr.strip s) ""); simpl; [discriminate | reflexivity].
Qed.

Lemma PhoneField_init_accepted s :
  accepted (PhoneField.init (Some s)) = true ->
  PhoneField.init (Some s) = Ok (PhoneField.mk s).
Proof.
  unfold PhoneField.init, PhoneField.__validate_phone__.
  destruct (String.eqb (PyStr.strip s) ""); simpl; [discriminate|].
  destruct (PyStr.match_phone s); simpl; [reflexivity | discriminate].
Qed.

Lemma BirthDayField_init_accepted now s :
  accepted (BirthDayField.init now (Some s)) = true ->
  exists d, BirthDayField.init now (Some s) = Ok (BirthDayField.mk s d).
Proof.
  unfold BirthDayField.init, BirthDayField.__validate_birthday__.
  destruct (String.eqb (PyStr.strip s) ""); simpl; [discriminate|].
  destruct (PyStr.match_birthday s); simpl; [|discriminate].
  destruct (fromisoformat s) as [d|e]; simpl; [|discriminate].
  destruct (DateTime.gt d now); simpl; [discriminate|].
  intros _; eexists; reflexivity.
Qed.

Lemma load_phones_saved ps r :
  forallb (fun p => accepted (PhoneField.init (Some (PhoneField.value p)))) ps = true ->
  load_phones r (map (fun p => Some (PhoneField.value p)) ps)
  = Ok (mk_record (name r) (phones r ++ ps) (birthday r)).
Proof.
  revert r; induction ps as [|[v] ps IH]; intros r; simpl.
  - intros _; rewrite app_nil_r; now destruct r.
  - intros [Hv Hps]%andb_true_iff.
    rewrite (PhoneField_init_accepted _ Hv); simpl.
    rewrite IH by exact Hps; simpl.
    now rewrite <- app_assoc.
Qed.

(** A record whose fields are valid is rebuilt from its exported data,
    field for field; only the parsed date is computed afresh. *)
Lemma rebuild_saved now r :
  valid_fields now r = true ->
  exists r',
    rebuild now (get_json_data r) = Ok (Some r')
    /\ name r' = name r /\ phones r' = phones r
    /\ option_map BirthDayField.value (birthday r')
       = option_map BirthDayField.value (birthday r).
Proof.
  unfold valid_fields; intros [[Hn Hps]%andb_true_iff Hb]%andb_true_iff.
  unfold rebuild, get_json_data, Record_init; simpl.
  rewrite (NameField_init_accepted _ Hn); simpl.
  destruct r as [[n] ps [[bv bd]|]]; simpl in *.
  - destruct (BirthDayField_init_accepted _ _ Hb) as [d ->]; simpl.
    rewrite load_phones_saved by exact Hps; simpl.
    eexists; repeat split.
  - rewrite load_phones_saved by exact Hps; simpl.
    eexists; repeat split.
Qed.

Lemma load_loop_saved now (l : list (string * record)) self index :
  NoDup (map fst (data self)
         ++ map (fun kr => NameField.value (name (snd kr))) l) ->
  Forall (fun kr => valid_fields now (snd kr) = true) l ->
  exists loaded,
    load_loop now self index (map (fun kr => get_json_data (snd kr)) l)
    = (loaded, Ok None)
    /\ max_page loaded = max_page self
    /\ map fst (data loaded)
       = map fst (data self) ++ map (fun kr => NameField.value (name (snd kr))) l
    /\ map (fun kr => record_tuple (snd kr)) (data loaded)
       = map (fun kr => record_tuple (snd kr)) (data self)
         ++ map (fun kr => record_tuple (snd kr)) l.
Proof.
  revert self; induction l as [|[k r] l IH]; intros self Hnd Hvalid; simpl.
  - exists self; rewrite !app_nil_r; auto.
  - inversion Hvalid as [|? ? Hr Hvalid']; subst.
    simpl in Hr, Hnd.
    destruct (rebuild_saved now r Hr) as (r' & -> & Hname & Hphones & Hbirthday).
    assert (Hfresh : ~ In (NameField.value (name r)) (map fst (data self))).
    { intros Hin; apply NoDup_remove_2 in Hnd; apply Hnd.
      apply in_or_app; now left. }
    assert (Hadd : data (add_record self r')
                   = data self ++ [(NameField.value (name r), r')]).
    { unfold add_record; simpl; rewrite Hname; now apply dict_set_new. }
    destruct (IH (add_record self r')) as (loaded & Hload & Hmp & Hks & Htuples).
    + rewrite Hadd, map_app, <- app_assoc; exact Hnd.
    + exact Hvalid'.
    + exists loaded; rewrite Hload; repeat split; auto.
      * rewrite Hks, Hadd, map_app, <- app_assoc; reflexivity.
      * rewrite Htuples, Hadd, map_app, <- app_assoc; simpl.
        do 2 f_equal. unfold record_tuple; now rewrite Hname, Hphones, Hbirthday.
Qed.

(** C7.  A book whose records bear distinct names and hold valid fields,
    saved and loaded into any book: the load succeeds, and the loaded
    book holds the same (name, phones, birthday) tuples, each under the
    name of its record, in the order in which the load inserted them,
    which is the order of the saved book. *)
Theorem save_load_roundtrip (now : datetime) (saved target : AddressBook) :
  NoDup (names saved) ->
  Forall (fun kr => valid_fields now (snd kr) = true) (data saved) ->
  exists loaded,
    load_from_file now target (save_to_file saved) = (loaded, Ok None)
    /\ map record_tuple (map snd (data loaded))
       = map record_tuple (map snd (data saved))
    /\ keys loaded = names saved
    /\ book_wf loaded
    /\ max_page loaded = max_page target.
Proof.
  intros Hnd Hvalid.
  destruct (load_loop_saved now (data saved) (mk_book [] (max_page target)) 0)
    as (loaded & Hload & Hmp & Hks & Htuples); auto.
  exists loaded; unfold save_to_file, load_from_file.
  rewrite Hload; simpl in *; rewrite !map_map.
  repeat split; auto.
  - revert Hks Htuples; unfold record_tuple.
    generalize (data saved); generalize (data loaded).
    induction l as [|[k r] l IH]; intros [|[k' r'] l'] Hks Htuples;
      try discriminate; constructor; simpl in *.
    + injection Hks as -> _. injection Htuples as -> _ _ _. reflexivity.
    + injection Hks as _ Hks. injection Htuples as _ _ _ Htuples.
      eapply IH; eassumption.
  - unfold keys, names in *; now rewrite Hks.
Qed.

Lemma save_load_roundtrip_witness :
  NoDup (names Sample.book4)
  /\ exists loaded,
       load_from_file Sample.noon_2024_05_10 (AddressBook_init None)
         (save_to_file Sample.book4) = (loaded, Ok None)
       /\ map record_tuple (map snd (data loaded))
          = map record_tuple (map snd (data Sample.book4))
       /\ keys loaded = ["Ann"; "Cy"; "Dan"; "Eve"].
Proof.
  assert (Hnd : NoDup (names Sample.book4))
    by (repeat constructor; simpl; intuition discriminate).
  split; [exact Hnd|].
  destruct (save_load_roundtrip Sample.noon_2024_05_10 Sample.book4
              (AddressBook_init None) Hnd)
    as (loaded & Hload & Htuples & Hkeys & _).
  - repeat constructor.
  - exists loaded; split; [exact Hload|]; split; [exact Htuples | exact Hkeys].
Defined.

(** A page size below one is never reached by the length of a page: all
    the records come in one page. *)
Lemma iter_loop_nonpositive mp its page :
  mp <= 0 ->
  iter_loop mp its page
  = match page ++ map snd its with
    | [] => []
    | r :: l => [r :: l]
    end.
Proof.
  intros Hmp; revert page; induction its as [|[k r] its IH]; intros page; simpl.
  - rewrite app_nil_r; now destruct page.
  - destruct (Z.eqb_spec (Z.of_nat (length (page ++ [r]))) mp) as [Heq|_].
    + rewrite length_app in Heq; simpl in Heq; lia.
    + rewrite IH, <- app_assoc; reflexivity.
Qed.

(** * Further properties *)

(** ** Strings *)

Lemma string_app_nil_r (s : string) : (s ++ "")%string = s.
Proof. induction s as [|c s IH]; simpl; [reflexivity | now rewrite IH]. Qed.

Lemma string_app_assoc (a b c : string) :
  ((a ++ b) ++ c)%string = (a ++ (b ++ c))%string.
Proof. induction a as [|x a IH]; simpl; [reflexivity | now rewrite IH]. Qed.

Lemma string_app_length (a b : string) :
  String.length (a ++ b) = (String.length a + String.length b)%nat.
Proof. induction a as [|x a IH]; simpl; [reflexivity | now rewrite IH]. Qed.

Lemma all_chars_app p (a b : string) :
  all_chars p (a ++ b) = all_chars p a && all_chars p b.
Proof.
  induction a as [|x a IH]; simpl; [reflexivity|].
  now rewrite IH, andb_assoc.
Qed.

Lemma all_chars_reverse p s : all_chars p (PyStr.reverse s) = all_chars p s.
Proof.
  induction s as [|c s IH]; simpl; [reflexivity|].
  rewrite all_chars_app, IH; simpl.
  now rewrite andb_true_r, andb_comm.
Qed.

Lemma reverse_empty s : PyStr.reverse s = "" -> s = "".
Proof.
  destruct s as [|c s]; simpl; [reflexivity|].
  destruct (PyStr.reverse s); discriminate.
Qed.

Lemma lstrip_space_empty s :
  PyStr.lstrip_space s = "" <-> all_chars PyStr.isspace s = true.
Proof.
  induction s as [|c s IH]; simpl; [tauto|].
  destruct (PyStr.isspace c); simpl; [exact IH|].
  split; discriminate.
Qed.

Lemma lstrip_space_all_space s :
  all_chars PyStr.isspace (PyStr.lstrip_space s) = all_chars PyStr.isspace s.
Proof.
  induction s as [|c s IH]; simpl; [reflexivity|].
  destruct (PyStr.isspace c) eqn:Hc; simpl; [exact IH | now rewrite Hc].
Qed.

(** [s.strip() == ''] says that [s] holds nothing but whitespace. *)
Lemma strip_empty s :
  String.eqb (PyStr.strip s) "" = all_chars PyStr.isspace s.
Proof.
  unfold PyStr.strip.
  destruct (all_chars PyStr.isspace s) eqn:Hs.
  - apply String.eqb_eq.
    apply lstrip_space_empty in Hs; rewrite Hs; reflexivity.
  - apply String.eqb_neq; intros Hempty.
    apply reverse_empty, lstrip_space_empty in Hempty.
    rewrite all_chars_reverse, lstrip_space_all_space in Hempty; congruence.
Qed.

Lemma span_digits_spec s d t :
  PyStr.span_digits s = (d, t) ->
  s = (d ++ t)%string /\ all_chars PyStr.isdigit d = true
  /\ match t with
     | EmptyString => True
     | String c _ => PyStr.isdigit c = false
     end.
Proof.
  revert d t; induction s as [|c s IH]; simpl; intros d t.
  - intros [= <- <-]; auto.
  - destruct (PyStr.isdigit c) eqn:Hc.
    + destruct (PyStr.span_digits s) as [d' t'].
      intros [= <- <-]; destruct (IH d' t' eq_refl) as (-> & Hd & Ht).
      simpl; rewrite Hc; auto.
    + intros [= <- <-]; simpl; auto.
Qed.

Lemma span_digits_app d t :
  all_chars PyStr.isdigit d = true ->
  match t with
  | EmptyString => True
  | String c _ => PyStr.isdigit c = false
  end ->
  PyStr.span_digits (d ++ t) = (d, t).
Proof.
  intros Hd Ht; induction d as [|c d IH]; simpl in *.
  - destruct t as [|c t]; simpl; [reflexivity | now rewrite Ht].
  - apply andb_true_iff in Hd as [Hc Hd]; now rewrite Hc, IH.
Qed.

Lemma at_end_spec t :
  PyStr.at_end t = true <-> t = "" \/ t = String PyStr.newline "".
Proof.
  unfold PyStr.at_end; rewrite orb_true_iff, !String.eqb_eq; tauto.
Qed.

Lemma isdigit_not_space c : PyStr.isdigit c = true -> PyStr.isspace c = false.
Proof.
  unfold PyStr.isdigit, PyStr.isspace.
  generalize (nat_of_ascii c); intros n Hn.
  apply andb_true_iff in Hn as [H1%Nat.leb_le H2%Nat.leb_le].
  repeat match goal with
         | |- context [(?a <=? n)%nat] => destruct (Nat.leb_spec a n)
         | |- context [(n <=? ?a)%nat] => destruct (Nat.leb_spec n a)
         | |- context [(n =? ?a)%nat] => destruct (Nat.eqb_spec n a)
         end; simpl; auto; lia.
Qed.

(** ** Which values the fields accept *)

(** X1.  [PhoneField] accepts a string exactly when it is an optional
    [+], ten to fourteen digits, and nothing more but, possibly, one
    final newline. *)
Theorem PhoneField_accepts (s : string) :
  PhoneField.init (Some s) = Ok (PhoneField.mk s)
  <-> exists sign digits tail,
        s = (sign ++ digits ++ tail)%string
        /\ (sign = "" \/ sign = "+")
        /\ all_chars PyStr.isdigit digits = true
        /\ (10 <= String.length digits <= 14)%nat
        /\ (tail = "" \/ tail = String PyStr.newline "").
Proof.
  unfold PhoneField.init, PhoneField.__validate_phone__; rewrite strip_empty.
  split.
  - destruct (all_chars PyStr.isspace s); simpl; [discriminate|].
    destruct (PyStr.match_phone s) eqn:Hm; simpl; [intros _ | discriminate].
    unfold PyStr.match_phone in Hm.
    set (s1 := match s with
               | String c r => if Ascii.eqb c "+" then r else s
               | EmptyString => s
               end) in Hm.
    destruct (PyStr.span_digits s1) as [d t] eqn:Hspan.
    apply span_digits_spec in Hspan as (Hs1 & Hd & _).
    apply andb_true_iff in Hm as [[Hlo%Nat.leb_le Hhi%Nat.leb_le]%andb_true_iff
                                    Hend%at_end_spec].
    assert (Hsign : s = s1 \/ s = String "+" s1).
    { subst s1; destruct s as [|c r]; [now left|].
      destruct (Ascii.eqb_spec c "+"%char) as [->|_]; [now right | now left]. }
    destruct Hsign as [Hs|Hs].
    + exists "", d, t; simpl; rewrite Hs.
      split; [exact Hs1|]. split; [now left|]. split; [exact Hd|].
      split; [lia | exact Hend].
    + exists "+", d, t; simpl; rewrite Hs, Hs1.
      split; [reflexivity|]. split; [now right|]. split; [exact Hd|].
      split; [lia | exact Hend].
  - intros (sign & digits & tail & -> & Hsign & Hd & [Hlo Hhi] & Htail).
    assert (Hfirst : exists c r, digits = String c r /\ PyStr.isdigit c = true).
    { destruct digits as [|c r]; simpl in *; [lia|].
      apply andb_true_iff in Hd as [Hc _]; eauto. }
    destruct Hfirst as (c & r & Hdigits & Hc).
    assert (Hspan : PyStr.span_digits (digits ++ tail) = (digits, tail)).
    { apply span_digits_app; [exact Hd|].
      destruct Htail as [->| ->]; [exact I | reflexivity]. }
    assert (Hend : PyStr.at_end tail = true) by now apply at_end_spec.
    assert (Hlen : ((10 <=? String.length digits) && (String.length digits <=? 14))%nat
                   = true)
      by (apply andb_true_iff; split; apply Nat.leb_le; assumption).
    assert (Hmatch : PyStr.match_phone (sign ++ digits ++ tail) = true).
    { unfold PyStr.match_phone.
      destruct Hsign as [->| ->]; cbn [append].
      - assert (Hs1 : match (digits ++ tail)%string with
                      | String c0 r0 =>
                          if Ascii.eqb c0 "+" then r0 else (digits ++ tail)%string
                      | EmptyString => (digits ++ tail)%string
                      end = (digits ++ tail)%string).
        { rewrite Hdigits; cbn [append].
          destruct (Ascii.eqb_spec c "+"%char) as [->|_]; [discriminate Hc | reflexivity]. }
        rewrite Hs1, Hspan, Hend, Hlen; reflexivity.
      - rewrite Ascii.eqb_refl, Hspan, Hend, Hlen; reflexivity. }
    rewrite Hmatch.
    assert (Hspace : all_chars PyStr.isspace (sign ++ digits ++ tail) = false).
    { rewrite !all_chars_app, Hdigits; simpl.
      rewrite (isdigit_not_space c Hc); simpl.
      now rewrite andb_false_r. }
    rewrite Hspace; reflexivity.
Qed.

(** X2.  [NameField] accepts a string exactly when some character of it
    is not whitespace; it rejects [None]. *)
Theorem NameField_accepts (s : string) :
  (NameField.init (Some s) = Ok (NameField.mk s)
   <-> all_chars PyStr.isspace s = false)
  /\ NameField.init None = Raise (ValueError "Name cannot be None")
  /\ (all_chars PyStr.isspace s = true ->
      NameField.init (Some s)
      = Raise (ValueError "Name cannot be empty or whitespaces")).
Proof.
  unfold NameField.init, NameField.__validate_name__; rewrite strip_empty.
  destruct (all_chars PyStr.isspace s); simpl; repeat split;
    try discriminate; auto.
Qed.

Lemma new_Ok y m d t :
  DateTime.new y m d = Ok t ->
  t = mk_datetime y m d 0 0 0 0
  /\ MINYEAR <= y <= MAXYEAR /\ 1 <= m <= 12 /\ 1 <= d <= _days_in_month y m.
Proof.
  unfold DateTime.new.
  destruct ((MINYEAR <=? y) && (y <=? MAXYEAR)) eqn:Hy; simpl; [|discriminate].
  destruct ((1 <=? m) && (m <=? 12)) eqn:Hm; simpl; [|discriminate].
  destruct ((1 <=? d) && (d <=? _days_in_month y m)) eqn:Hd; simpl; [|discriminate].
  apply andb_true_iff in Hy as [?%Z.leb_le ?%Z.leb_le].
  apply andb_true_iff in Hm as [?%Z.leb_le ?%Z.leb_le].
  apply andb_true_iff in Hd as [?%Z.leb_le ?%Z.leb_le].
  intros [= <-]; repeat split; assumption.
Qed.

Lemma new_Ok_valid y m d t : DateTime.new y m d = Ok t -> DateTime.valid t.
Proof.
  intros H; apply new_Ok in H as (-> & Hy & Hm & Hd).
  unfold DateTime.valid; simpl; repeat split; try lia.
Qed.

Lemma fromisoformat_Ok s t :
  fromisoformat s = Ok t ->
  String.length s = 10%nat /\ DateTime.valid t
  /\ hour t = 0 /\ minute t = 0 /\ second t = 0 /\ microsecond t = 0.
Proof.
  unfold fromisoformat.
  destruct (String.length s =? 10)%nat eqn:Hlen; simpl; [|discriminate].
  apply Nat.eqb_eq in Hlen.
  destruct (_ && _); [|discriminate].
  destruct (PyStr.int_digits 0 (substring 0 4 s)); [|discriminate].
  destruct (PyStr.int_digits 0 (substring 5 2 s)); [|discriminate].
  destruct (PyStr.int_digits 0 (substring 8 2 s)); [|discriminate].
  intros H; split; [exact Hlen|]; split; [eapply new_Ok_valid; exact H|].
  apply new_Ok in H as (-> & _); simpl; auto.
Qed.

(** X3.  A [BirthDayField] that has been constructed holds the string it
    was given, of the ten characters [YYYY-MM-DD], and the date this
    string names: a date of the calendar, at midnight, not after the
    clock reading of the construction. *)
Theorem BirthDayField_init_invariant (now : datetime) (v : option string)
    (f : BirthDayField.t) :
  BirthDayField.init now v = Ok f ->
  exists d,
    v = Some (BirthDayField.value f)
    /\ BirthDayField.get_datetime f = Some d
    /\ fromisoformat (BirthDayField.value f) = Ok d
    /\ String.length (BirthDayField.value f) = 10%nat
    /\ DateTime.valid d
    /\ (hour d = 0 /\ minute d = 0 /\ second d = 0 /\ microsecond d = 0)
    /\ DateTime.gt d now = false.
Proof.
  unfold BirthDayField.init, BirthDayField.__validate_birthday__.
  destruct v as [s|]; [|discriminate].
  destruct (String.eqb (PyStr.strip s) ""); [discriminate|].
  destruct (PyStr.match_birthday s); [|discriminate].
  destruct (fromisoformat s) as [d|e] eqn:Hiso; [|discriminate].
  destruct (DateTime.gt d now) eqn:Hgt; [discriminate|].
  intros [= <-]; exists d; simpl.
  destruct (fromisoformat_Ok _ _ Hiso) as (Hlen & Hvalid & Htime).
  split; [reflexivity|]. split; [reflexivity|]. split; [exact Hiso|].
  split; [exact Hlen|]. split; [exact Hvalid|]. split; [exact Htime | exact Hgt].
Qed.

Lemma BirthDayField_init_invariant_witness :
  exists f d,
    BirthDayField.init Sample.noon_2024_05_10 (Some "2000-02-29") = Ok f
    /\ BirthDayField.get_datetime f = Some d
    /\ DateTime.valid d.
Proof.
  destruct (BirthDayField_init_invariant Sample.noon_2024_05_10
              (Some "2000-02-29")
              (BirthDayField.mk "2000-02-29" (Some (mk_datetime 2000 2 29 0 0 0 0)))
              eq_refl)
    as (d & _ & Hdate & _ & _ & Hvalid & _).
  eexists; exists d; split; [reflexivity|]; split; [exact Hdate | exact Hvalid].
Defined.

(** ** Records: the distance to the birthday *)

Lemma month_cases m :
  1 <= m <= 12 ->
  m = 1 \/ m = 2 \/ m = 3 \/ m = 4 \/ m = 5 \/ m = 6
  \/ m = 7 \/ m = 8 \/ m = 9 \/ m = 10 \/ m = 11 \/ m = 12.
Proof. lia. Qed.

(** The months of a year follow one another. *)
Lemma _days_before_month_step y m m' :
  1 <= m -> m < m' -> m' <= 12 ->
  _days_before_month y m + _days_in_month y m <= _days_before_month y m'.
Proof.
  intros H1 Hlt H12.
  destruct (month_cases m ltac:(lia)) as [->|[->|[->|[->|[->|[->|[->|[->|[->|[->|[->| ->]]]]]]]]]]];
    destruct (month_cases m' ltac:(lia)) as [->|[->|[->|[->|[->|[->|[->|[->|[->|[->|[->| ->]]]]]]]]]]];
    try lia;
    unfold _days_before_month, _days_in_month; simpl;
    destruct (_is_leap y); simpl; lia.
Qed.

Lemma _ymd2ord_le y m d m' d' :
  1 <= m -> m' <= 12 -> 1 <= d' -> d <= _days_in_month y m ->
  m < m' \/ (m = m' /\ d <= d') ->
  _ymd2ord y m d <= _ymd2ord y m' d'.
Proof.
  intros H1 H12 Hd' Hd [Hlt|[-> Hle]]; unfold _ymd2ord.
  - pose proof (_days_before_month_step y m m' H1 Hlt H12). lia.
  - lia.
Qed.

Lemma _ymd2ord_lt y m d m' d' :
  1 <= m -> m' <= 12 -> 1 <= d' -> d <= _days_in_month y m ->
  m < m' \/ (m = m' /\ d < d') ->
  _ymd2ord y m d < _ymd2ord y m' d'.
Proof.
  intros H1 H12 Hd' Hd [Hlt|[-> Hle]]; unfold _ymd2ord.
  - pose proof (_days_before_month_step y m m' H1 Hlt H12). lia.
  - lia.
Qed.

(** A day of year [y] lies between the first day of [y] and the eve of
    the first day of [y + 1]. *)
Lemma _ymd2ord_in_year y m d :
  1 <= m <= 12 -> 1 <= d <= _days_in_month y m ->
  _days_before_year y + 1 <= _ymd2ord y m d <= _days_before_year (y + 1).
Proof.
  intros Hm Hd.
  pose proof (_is_leap_spec y) as Hy.
  unfold _ymd2ord; revert Hd.
  destruct (month_cases m Hm) as [->|[->|[->|[->|[->|[->|[->|[->|[->|[->|[->| ->]]]]]]]]]]];
    unfold _days_before_month, _days_in_month; simpl;
    destruct (_is_leap y); simpl in *; lia.
Qed.

(** Midnight of day [(m, d)] of this year is after [now] exactly when
    the day comes after today. *)
Lemma gt_midnight now m d :
  0 <= hour now -> 0 <= minute now -> 0 <= second now -> 0 <= microsecond now ->
  DateTime.gt (mk_datetime (year now) m d 0 0 0 0) now = true
  <-> month now < m \/ (m = month now /\ day now < d).
Proof.
  intros Hh Hm Hs Hu.
  destruct (Z.compare_spec m (month now)) as [->|Hlt|Hgt];
    [destruct (Z.compare_spec d (day now)) as [->|Hlt|Hgt] | |].
  - rewrite midnight_not_gt by assumption; split; [discriminate | lia].
  - unfold DateTime.gt, fields, _cmp;
      cbn [year month day hour minute second microsecond].
    rewrite !Z.compare_refl, (proj2 (Z.compare_lt_iff _ _) Hlt).
    split; [discriminate | lia].
  - unfold DateTime.gt, fields, _cmp;
      cbn [year month day hour minute second microsecond].
    rewrite !Z.compare_refl, (proj2 (Z.compare_gt_iff _ _) Hgt).
    split; [lia | reflexivity].
  - unfold DateTime.gt, fields, _cmp;
      cbn [year month day hour minute second microsecond].
    rewrite !Z.compare_refl, (proj2 (Z.compare_lt_iff _ _) Hlt).
    split; [discriminate | lia].
  - unfold DateTime.gt, fields, _cmp;
      cbn [year month day hour minute second microsecond].
    rewrite !Z.compare_refl, (proj2 (Z.compare_gt_iff _ _) Hgt).
    split; [lia | reflexivity].
Qed.

(** X4.  Whenever [days_to_birthday] returns, it returns a number of days
    from 0 to 366. *)
Theorem days_to_birthday_range (now : datetime) (self : record) (n : Z) :
  DateTime.valid now ->
  days_to_birthday now self = Ok n ->
  0 <= n <= 366.
Proof.
  intros (Hy & Hm & Hd & Hh & Hmi & Hs & Hu).
  unfold days_to_birthday.
  destruct (birthday self) as [b|]; [|discriminate].
  destruct (BirthDayField.get_datetime b) as [bd|]; [|discriminate].
  destruct (DateTime.new (year now) (month bd) (day bd)) as [delta1|] eqn:H1;
    simpl; [|discriminate].
  destruct (DateTime.new (year now + 1) (month bd) (day bd)) as [delta2|] eqn:H2;
    simpl; [|discriminate].
  apply new_Ok in H1 as (-> & _ & Hm1 & Hd1).
  apply new_Ok in H2 as (-> & _ & _ & Hd2).
  pose proof (_ymd2ord_in_year (year now) (month now) (day now) Hm Hd) as Hnow.
  pose proof (_ymd2ord_in_year (year now) (month bd) (day bd) Hm1 Hd1) as Hthis.
  pose proof (_ymd2ord_in_year (year now + 1) (month bd) (day bd) Hm1 Hd2) as Hnext.
  pose proof (year_length (year now) (month bd) (day bd) Hm1) as Hlen.
  pose proof (_is_leap_spec (year now)) as Hleap.
  assert (Hleap' : _days_before_year (year now + 1) - _days_before_year (year now) <= 366)
    by (destruct (_is_leap (year now)); lia).
  destruct (DateTime.gt (mk_datetime (year now) (month bd) (day bd) 0 0 0 0) now)
    eqn:Hgt; intros [= <-];
    unfold DateTime.sub_days, toordinal, seconds_of_day;
    cbn [year month day hour minute second microsecond].
  - apply gt_midnight in Hgt; try lia.
    assert (Hord : _ymd2ord (year now) (month now) (day now)
                   < _ymd2ord (year now) (month bd) (day bd))
      by (apply _ymd2ord_lt; lia).
    split.
    + apply Z.div_le_lower_bound; lia.
    + apply Z.div_le_upper_bound; lia.
  - assert (Hle : month bd < month now \/ (month bd = month now /\ day bd <= day now)).
    { destruct (Z.lt_trichotomy (month bd) (month now)) as [?|[Heq|Hlt]]; [now left | |].
      - right; split; [exact Heq|].
        destruct (Z.le_gt_cases (day bd) (day now)); [assumption|].
        assert (DateTime.gt (mk_datetime (year now) (month bd) (day bd) 0 0 0 0) now
                = true) by (apply gt_midnight; lia).
        congruence.
      - assert (DateTime.gt (mk_datetime (year now) (month bd) (day bd) 0 0 0 0) now
                = true) by (apply gt_midnight; lia).
        congruence. }
    assert (Hord : _ymd2ord (year now) (month bd) (day bd)
                   <= _ymd2ord (year now) (month now) (day now))
      by (apply _ymd2ord_le; lia).
    split.
    + apply Z.div_le_lower_bound; lia.
    + apply Z.div_le_upper_bound; lia.
Qed.

Lemma days_to_birthday_range_witness :
  days_to_birthday Sample.noon_2024_05_10 Sample.ann = Ok 364
  /\ 0 <= 364 <= 366.
Proof.
  split; [reflexivity|].
  apply (days_to_birthday_range Sample.noon_2024_05_10 Sample.ann 364).
  - unfold DateTime.valid; simpl; repeat split; try lia; vm_compute; congruence.
  - reflexivity.
Defined.

(** ** Records: the line of a record *)

Lemma record_str_leap_day now self b bd :
  birthday self = Some b -> BirthDayField.get_datetime b = Some bd ->
  month bd = 2 -> day bd = 29 ->
  exists e, record_str now self = Raise e.
Proof.
  intros Hb Hbd Hm Hd.
  destruct (days_to_birthday_leap_day now self b bd Hb Hbd Hm Hd) as [e He].
  exists e; unfold record_str; rewrite Hb, He; reflexivity.
Qed.

Lemma render_loop_raises now r found info_line :
  In r found -> (exists e, record_str now r = Raise e) ->
  exists s e, Commands.render_loop now found info_line = (s, Raise e).
Proof.
  intros Hin [e He]; revert info_line.
  induction found as [|r' found IH]; intros info_line; [contradiction|].
  simpl; destruct (record_str now r') as [s|e'] eqn:Hr'.
  - destruct Hin as [->|Hin]; [congruence | now apply IH].
  - eauto.
Qed.

Lemma show_all_loop_raises now r pages p info_line :
  In r (concat pages) -> (exists e, record_str now r = Raise e) ->
  exists e, Commands.show_all_loop now pages p info_line = Raise e.
Proof.
  intros Hin Hr; revert p info_line.
  induction pages as [|page pages IH]; intros p info_line; [contradiction|].
  simpl in *.
  destruct (Commands.render_loop now page _) as [s [[]|e]] eqn:Hpage; [|eauto].
  apply in_app_or in Hin as [Hin|Hin]; [|now apply IH].
  match type of Hpage with
  | Commands.render_loop _ _ ?line = _ =>
      destruct (render_loop_raises now r page line Hin Hr) as (s' & e' & He')
  end.
  congruence.
Qed.

(** X5.  A record whose birthday is a 29 February cannot be printed:
    [str(record)] raises at every clock reading, and so does [show] of
    [all] on every book that holds such a record, whatever the page
    size. *)
Theorem show_all_leap_day_raises (int10 : string -> option Z) (now : datetime)
    (book : AddressBook) (key : string) (r : record) (b : BirthDayField.t)
    (bd : datetime) :
  In (key, r) (data book) ->
  birthday r = Some b -> BirthDayField.get_datetime b = Some bd ->
  month bd = 2 -> day bd = 29 ->
  (exists e, record_str now r = Raise e)
  /\ exists e, Commands.show int10 now book "all" = Raise e.
Proof.
  intros Hin Hb Hbd Hm Hd.
  pose proof (record_str_leap_day now r b bd Hb Hbd Hm Hd) as Hr.
  split; [exact Hr|].
  unfold Commands.show; simpl.
  apply show_all_loop_raises with (r := r); [|exact Hr].
  unfold iter, items; rewrite iter_loop_concat; simpl.
  apply in_map_iff; exists (key, r); auto.
Qed.

Lemma show_all_leap_day_raises_witness :
  (exists f, BirthDayField.init Sample.noon_2024_05_10 (Some "2000-02-29") = Ok f
             /\ birthday Sample2.leap = Some f)
  /\ exists e, Commands.show (fun _ => None) Sample.noon_2024_05_10
                 (add_record Sample.book4 Sample2.leap) "all" = Raise e.
Proof.
  split; [eexists; split; reflexivity|].
  apply (show_all_leap_day_raises (fun _ => None) Sample.noon_2024_05_10
           (add_record Sample.book4 Sample2.leap) "Leap" Sample2.leap
           (BirthDayField.mk "2000-02-29" (Some (mk_datetime 2000 2 29 0 0 0 0)))
           (mk_datetime 2000 2 29 0 0 0 0)).
  - simpl; auto 10.
  - reflexivity.
  - reflexivity.
  - reflexivity.
  - reflexivity.
Defined.

(** ** Records: phones *)

Lemma remove_first_code_length code l :
  length (remove_first_code code l)
  = (length l
     - if existsb (fun q => String.eqb (PhoneField.get_phone_code q) code) l
       then 1 else 0)%nat.
Proof.
  induction l as [|q l IH]; simpl; [reflexivity|].
  destruct (String.eqb (PhoneField.get_phone_code q) code); simpl; [lia|].
  rewrite IH.
  destruct (existsb _ l) eqn:Hex; [|lia].
  destruct l; [discriminate | simpl; lia].
Qed.

(** X6.  [delete_phone] removes one phone when some phone of the record
    has the normalized key of the number, and none otherwise; it leaves
    the name and the birthday as they are. *)
Theorem delete_phone_removes_at_most_one (self : record) (number : string) :
  length (phones (delete_phone self number))
  = (length (phones self)
     - if existsb (fun q => String.eqb (PhoneField.get_phone_code q)
                              (PhoneField.get_phone_code (PhoneField.mk number)))
            (phones self)
       then 1 else 0)%nat
  /\ name (delete_phone self number) = name self
  /\ birthday (delete_phone self number) = birthday self.
Proof.
  unfold delete_phone; simpl; split; [|split; reflexivity].
  apply remove_first_code_length.
Qed.

(** X7.  A phone that has been added is removed again by [delete_phone]
    of its own string, and the record is as before, when no other phone
    of the record has the same normalized key. *)
Theorem add_phone_delete_phone (self : record) (p : PhoneField.t) :
  Forall (fun q => PhoneField.get_phone_code q <> PhoneField.get_phone_code p)
    (phones self) ->
  delete_phone (add_phone self p) (PhoneField.value p) = self.
Proof.
  intros Hfresh; unfold delete_phone, add_phone; simpl.
  rewrite remove_first_code_found; [| reflexivity | exact Hfresh].
  rewrite app_nil_r; now destruct self.
Qed.

Lemma add_phone_delete_phone_witness :
  delete_phone (add_phone Sample.dan (PhoneField.mk "+380501234567")) "+380501234567"
  = Sample.dan.
Proof.
  apply (add_phone_delete_phone Sample.dan (PhoneField.mk "+380501234567")).
  repeat constructor; vm_compute; discriminate.
Defined.

(** ** The book: lookups *)

Lemma lower_char_idempotent c :
  PyText.lower_char (PyText.lower_char c) = PyText.lower_char c.
Proof. destruct c as [[] [] [] [] [] [] [] []]; reflexivity. Qed.

Lemma lower_idempotent s : PyText.lower (PyText.lower s) = PyText.lower s.
Proof.
  induction s as [|c s IH]; simpl; [reflexivity|].
  now rewrite lower_char_idempotent, IH.
Qed.

Lemma startswith_refl s : PyText.startswith s s = true.
Proof.
  induction s as [|c s IH]; simpl; [reflexivity|].
  now rewrite Ascii.eqb_refl, IH.
Qed.

Lemma contains_refl s : PyText.contains s s = true.
Proof. destruct s; simpl; [reflexivity|]. now rewrite Ascii.eqb_refl, startswith_refl. Qed.

Lemma contains_empty s : PyText.contains "" s = true.
Proof. destruct s; reflexivity. Qed.

Lemma find_by_name_loop_filter n use_any its result :
  find_by_name_loop n use_any its result
  = result ++ map snd (filter (fun kr => query_matches use_any n (fst kr)) its).
Proof.
  revert result; induction its as [|[key r] its IH]; intros result; simpl.
  - now rewrite app_nil_r.
  - unfold query_matches at 1; destruct use_any; simpl.
    + destruct (PyText.contains _ _); simpl; rewrite IH;
        [now rewrite <- app_assoc | reflexivity].
    + destruct (String.eqb _ _); simpl; rewrite IH;
        [now rewrite <- app_assoc | reflexivity].
Qed.

Lemma find_by_phone_inner_spec number use_any r ps result :
  find_by_phone_inner number use_any r ps result
  = if existsb (fun p => query_matches use_any number (PhoneField.value p)) ps
    then result ++ [r] else result.
Proof.
  induction ps as [|p ps IH]; simpl; [reflexivity|].
  unfold query_matches at 1; destruct use_any; simpl.
  - destruct (PyText.contains _ _); simpl; [reflexivity | exact IH].
  - destruct (String.eqb (PyText.lower number) _) eqn:Heq; simpl.
    + rewrite String.eqb_sym, Heq; reflexivity.
    + rewrite String.eqb_sym, Heq; exact IH.
Qed.

Lemma find_by_phone_loop_filter number use_any its result :
  find_by_phone_loop number use_any its result
  = result
    ++ map snd
         (filter (fun kr =>
                    existsb (fun p => query_matches use_any number (PhoneField.value p))
                      (phones (snd kr)))
            its).
Proof.
  revert result; induction its as [|[key r] its IH]; intros result; simpl.
  - now rewrite app_nil_r.
  - rewrite IH, find_by_phone_inner_spec.
    destruct (existsb _ (phones r)); simpl; [now rewrite <- app_assoc | reflexivity].
Qed.

(** X8.  [find_by_name] returns the records whose key matches the query,
    each once, in key order: with [use_any] the keys that contain the
    query, without it the keys equal to it, letter case apart. *)
Theorem find_by_name_filter (self : AddressBook) (n : string) (use_any : bool) :
  find_by_name self n use_any
  = map snd (filter (fun kr => query_matches use_any n (fst kr)) (data self)).
Proof. unfold find_by_name; now rewrite find_by_name_loop_filter. Qed.

(** X9.  [find_by_phone] returns the records of which some phone
    matches the query, each once however many of its phones match, in
    key order; the phones are compared as stored, not by their
    normalized key. *)
Theorem find_by_phone_filter (self : AddressBook) (number : string) (use_any : bool) :
  find_by_phone self number use_any
  = map snd
      (filter (fun kr =>
                 existsb (fun p => query_matches use_any number (PhoneField.value p))
                   (phones (snd kr)))
         (data self)).
Proof. unfold find_by_phone; now rewrite find_by_phone_loop_filter. Qed.

Lemma dict_set_In {V : Type} (d : list (string * V)) k v : In (k, v) (dict_set d k v).
Proof.
  induction d as [|[k' v'] d IH]; simpl; [now left|].
  destruct (String.eqb k' k); [now left | now right].
Qed.

(** X10.  A record that has been added is found by its name, in whatever
    letter case the name is asked for, by the exact and by the substring
    lookup. *)
Theorem add_record_find_by_name (self : AddressBook) (r : record) (n : string)
    (use_any : bool) :
  PyText.lower n = PyText.lower (NameField.value (name r)) ->
  In r (find_by_name (add_record self r) n use_any).
Proof.
  intros Hn; unfold find_by_name; rewrite find_by_name_loop_filter; simpl.
  apply in_map_iff; exists (NameField.value (name r), r); split; [reflexivity|].
  apply filter_In; split; [apply dict_set_In|].
  unfold query_matches; simpl; rewrite Hn.
  destruct use_any; [apply contains_refl | apply String.eqb_refl].
Qed.

Lemma add_record_find_by_name_witness :
  In Sample.ann2 (find_by_name (add_record Sample.book4 Sample.ann2) "aNN" false).
Proof.
  apply (add_record_find_by_name Sample.book4 Sample.ann2 "aNN" false).
  reflexivity.
Defined.

(** X11.  The lookups do not see the letter case of the query: the query
    and its lower-case form find the same records. *)
Theorem find_ignores_case (self : AddressBook) (q : string) (use_any : bool) :
  find_by_name self (PyText.lower q) use_any = find_by_name self q use_any
  /\ find_by_phone self (PyText.lower q) use_any = find_by_phone self q use_any.
Proof.
  unfold find_by_name, find_by_phone.
  rewrite !find_by_name_loop_filter, !find_by_phone_loop_filter.
  unfold query_matches; rewrite lower_idempotent; split; reflexivity.
Qed.

(** X12.  Every record the exact lookup finds, the substring lookup
    finds too, by name and by phone. *)
Theorem find_exact_in_substring (self : AddressBook) (q : string) :
  incl (find_by_name self q false) (find_by_name self q true)
  /\ incl (find_by_phone self q false) (find_by_phone self q true).
Proof.
  unfold find_by_name, find_by_phone.
  rewrite !find_by_name_loop_filter, !find_by_phone_loop_filter; simpl.
  assert (Hq : forall c, query_matches false q c = true -> query_matches true q c = true).
  { unfold query_matches; intros c Hc%String.eqb_eq; rewrite Hc; apply contains_refl. }
  split; intros r [kr [<- [Hin Hm]%filter_In]]%in_map_iff;
    apply in_map_iff; exists kr; split; try reflexivity;
    apply filter_In; split; try assumption.
  - now apply Hq.
  - apply existsb_exists in Hm as (p & Hp & Hm).
    apply existsb_exists; exists p; split; [assumption | now apply Hq].
Qed.

Lemma query_matches_empty c : query_matches true "" c = true.
Proof. unfold query_matches; simpl; apply contains_empty. Qed.

(** X13.  The empty query, in substring mode: [find_by_name] returns
    every record of the book, and [find_by_phone] every record that has
    a phone. *)
Theorem find_empty_query (self : AddressBook) :
  find_by_name self "" true = map snd (data self)
  /\ find_by_phone self "" true
     = filter (fun r => negb (length (phones r) =? 0)%nat) (map snd (data self)).
Proof.
  unfold find_by_name, find_by_phone.
  rewrite find_by_name_loop_filter, find_by_phone_loop_filter.
  cbn [app]; split.
  - induction (data self) as [|[k r] d IH]; [reflexivity|].
    cbn [filter map fst snd]; rewrite query_matches_empty.
    cbn [map snd]; now rewrite IH.
  - induction (data self) as [|[k r] d IH]; [reflexivity|].
    cbn [filter map fst snd]; rewrite <- IH.
    destruct (phones r) as [|p ps]; [reflexivity|].
    cbn [existsb]; rewrite query_matches_empty; reflexivity.
Qed.

(** ** The book: adding, pages *)

(** X14.  [add_record] with a name the book does not hold: the record
    goes last, under its name, after the entries the book held, which
    stay as they are; it is the last record of the last page, and the
    book stays well formed. *)
Theorem add_record_new_name (self : AddressBook) (r : record) :
  ~ In (NameField.value (name r)) (keys self) ->
  data (add_record self r) = data self ++ [(NameField.value (name r), r)]
  /\ concat (iter (add_record self r)) = map snd (data self) ++ [r]
  /\ (book_wf self -> book_wf (add_record self r)).
Proof.
  intros Hnew.
  assert (Hdata : data (add_record self r)
                  = data self ++ [(NameField.value (name r), r)])
    by (unfold add_record; simpl; now apply dict_set_new).
  split; [exact Hdata|]; split; [|apply add_record_wf].
  unfold iter, items; rewrite iter_loop_concat, Hdata, map_app; reflexivity.
Qed.

Lemma add_record_new_name_witness :
  keys (add_record Sample.book4 Sample2.leap) = ["Ann"; "Cy"; "Dan"; "Eve"; "Leap"].
Proof.
  destruct (add_record_new_name Sample.book4 Sample2.leap) as (Hdata & _).
  - simpl; intuition discriminate.
  - unfold keys; rewrite Hdata; reflexivity.
Defined.

(** X15.  A page size of zero or less is never reached by the length of
    a page: a book that is not empty comes as one page, which holds all
    its records, and page 1 is that page. *)
Theorem iter_nonpositive_page_size (self : AddressBook) :
  max_page self <= 0 -> data self <> [] ->
  iter self = [map snd (data self)]
  /\ getitem self 1 = Ok (map snd (data self)).
Proof.
  intros Hmp Hdata.
  assert (Hiter : iter self = [map snd (data self)]).
  { unfold iter, items; rewrite iter_loop_nonpositive by assumption; simpl.
    destruct (data self); [contradiction | reflexivity]. }
  split; [exact Hiter|].
  unfold getitem; rewrite Hiter; reflexivity.
Qed.

Lemma iter_nonpositive_page_size_witness :
  iter Sample2.book2 = [[Sample.ann; Sample.ann2; Sample.cy]].
Proof.
  apply (iter_nonpositive_page_size Sample2.book2).
  - simpl; lia.
  - discriminate.
Defined.

(** X16.  Indexing outside the pages raises [KeyError] with a message
    that gives, as the max page, the number of pages plus one. *)
Theorem getitem_out_of_range_message (self : AddressBook) (page_number : Z) :
  page_number < 1 \/ Z.of_nat (length (iter self)) < page_number ->
  getitem self page_number
  = Raise (KeyError ("index out of range in book, max page: "
                     ++ PyStr.str_int (Z.of_nat (length (iter self)) + 1))%string).
Proof.
  intros Hout; unfold getitem.
  rewrite getitem_loop_out by lia.
  now rewrite Z.add_comm.
Qed.

Lemma getitem_out_of_range_message_witness :
  getitem Sample.book4 3
  = Raise (KeyError "index out of range in book, max page: 3").
Proof.
  apply (getitem_out_of_range_message Sample.book4 3).
  right; vm_compute; reflexivity.
Defined.

Lemma iter_loop_nth mp its page i :
  0 < mp -> Z.of_nat (length page) < mp ->
  nth i (iter_loop mp its page) []
  = firstn (Z.to_nat mp) (skipn (i * Z.to_nat mp) (page ++ map snd its)).
Proof.
  intros Hmp; revert page i; induction its as [|[k r] its IH]; intros page i Hpage.
  - simpl iter_loop; simpl map; rewrite app_nil_r.
    destruct page as [|r0 page].
    + rewrite skipn_nil, firstn_nil; now destruct i.
    + destruct i as [|i].
      * simpl; apply eq_sym, firstn_all2; lia.
      * rewrite skipn_all2 by (simpl length in *; nia).
        rewrite firstn_nil; now destruct i.
  - simpl iter_loop.
    assert (Hlen : length (page ++ [r]) = S (length page))
      by (rewrite length_app; simpl; lia).
    assert (Happ : page ++ map snd ((k, r) :: its) = (page ++ [r]) ++ map snd its)
      by (simpl; now rewrite <- app_assoc).
    rewrite Happ.
    destruct (Z.eqb_spec (Z.of_nat (length (page ++ [r]))) mp) as [Heq|Hne].
    + assert (HP : Z.to_nat mp = length (page ++ [r])) by lia.
      destruct i as [|i].
      * simpl nth; simpl Nat.mul; simpl skipn.
        rewrite HP, firstn_app, firstn_all, Nat.sub_diag; simpl.
        now rewrite app_nil_r.
      * simpl nth. rewrite IH by (simpl; lia). simpl app.
        replace (S i * Z.to_nat mp)%nat with (i * Z.to_nat mp + Z.to_nat mp)%nat by lia.
        rewrite <- skipn_skipn.
        replace (skipn (Z.to_nat mp) ((page ++ [r]) ++ map snd its))
          with (map snd its); [reflexivity|].
        rewrite HP, skipn_app, skipn_all, Nat.sub_diag; reflexivity.
    + apply IH; lia.
Qed.

(** X17.  With a page size [P] of at least one, page [k] of the book,
    for [k] from 1 to the page count, holds the records from the
    [(k-1)P+1]-th to the [kP]-th in key order. *)
Theorem getitem_page_content (self : AddressBook) (k : Z) :
  0 < max_page self ->
  1 <= k <= Z.of_nat (length (iter self)) ->
  getitem self k
  = Ok (firstn (Z.to_nat (max_page self))
          (skipn (Z.to_nat (k - 1) * Z.to_nat (max_page self))
             (map snd (data self)))).
Proof.
  intros Hmp Hk; unfold getitem.
  rewrite getitem_loop_in by lia.
  unfold iter, items; rewrite iter_loop_nth by (simpl; lia).
  reflexivity.
Qed.

Lemma getitem_page_content_witness :
  getitem Sample.book4 2 = Ok [Sample.eve].
Proof.
  apply (getitem_page_content Sample.book4 2).
  - reflexivity.
  - vm_compute; split; discriminate.
Defined.

(** ** The book: loading *)

Lemma load_phones_name ps r r' :
  load_phones r ps = Ok r' -> name r' = name r.
Proof.
  revert r; induction ps as [|p ps IH]; intros r; simpl.
  - now intros [= <-].
  - destruct (PhoneField.init p) as [pf|]; simpl; [|discriminate].
    intros H; now rewrite (IH _ H).
Qed.

(** A record the load rebuilds bears the name its element holds. *)
Lemma rebuild_name now j r :
  rebuild now j = Ok (Some r) -> j_name j = Some (Some (NameField.value (name r))).
Proof.
  unfold rebuild, Record_init, NameField.init.
  destruct (j_name j) as [n|]; [|discriminate].
  destruct n as [s|]; simpl; [|discriminate].
  destruct (String.eqb (PyStr.strip s) ""); simpl; [discriminate|].
  destruct (j_birthday j) as [b|]; simpl.
  - destruct (BirthDayField.init now b); simpl; [|discriminate].
    destruct (j_phones j) as [ps|]; simpl.
    + destruct (load_phones _ ps) as [r'|] eqn:Hps; simpl; [|discriminate].
      intros [= <-]; now rewrite (load_phones_name _ _ _ Hps).
    + now intros [= <-].
  - destruct (j_phones j) as [ps|]; simpl.
    + destruct (load_phones _ ps) as [r'|] eqn:Hps; simpl; [|discriminate].
      intros [= <-]; now rewrite (load_phones_name _ _ _ Hps).
    + now intros [= <-].
Qed.

Lemma load_loop_skips_unnamed now js self index :
  load_loop now self index js
  = load_loop now self index
      (filter (fun j => match j_name j with Some _ => true | None => false end) js).
Proof.
  revert self; induction js as [|j js IH]; intros self; simpl; [reflexivity|].
  destruct (j_name j) as [n|] eqn:Hn.
  - simpl; destruct (rebuild now j) as [[r|]|e]; auto.
  - rewrite (proj2 (rebuild_unnamed now j) Hn); apply IH.
Qed.

(** X18.  The elements of the file that have no [name] key count for
    nothing in a load: the load of the file and the load of the file
    without them leave the same book and return the same answer. *)
Theorem load_skips_unnamed (now : datetime) (self : AddressBook)
    (js : list json_record) :
  load_from_file now self (Decoded js)
  = load_from_file now self
      (Decoded (filter (fun j => match j_name j with
                                 | Some _ => true
                                 | None => false
                                 end) js)).
Proof. unfold load_from_file; apply load_loop_skips_unnamed. Qed.

Lemma load_loop_wf now js self index :
  book_wf self -> book_wf (fst (load_loop now self index js)).
Proof.
  revert self; induction js as [|j js IH]; intros self Hwf; simpl; [exact Hwf|].
  destruct (rebuild now j) as [[r|]|e].
  - apply IH, add_record_wf, Hwf.
  - now apply IH.
  - destruct e; exact Hwf.
Qed.

Lemma load_loop_keys now js self index k :
  In k (keys (fst (load_loop now self index js))) ->
  In k (keys self) \/ exists j, In j js /\ j_name j = Some (Some k).
Proof.
  revert self; induction js as [|j js IH]; intros self; simpl; [now left|].
  destruct (rebuild now j) as [[r|]|e] eqn:Hj.
  - intros Hin; apply IH in Hin as [Hin|(j' & Hj' & Hname)].
    + unfold keys, add_record in Hin; simpl in Hin.
      destruct (in_dec string_dec (NameField.value (name r)) (map fst (data self)))
        as [Hold|Hnew].
      * rewrite dict_set_keys_existing in Hin by exact Hold; now left.
      * rewrite dict_set_new, map_app in Hin by exact Hnew.
        apply in_app_or in Hin as [Hin|[<-|[]]]; [now left|].
        right; exists j; split; [now left | now apply rebuild_name with (now := now)].
    + right; exists j'; split; [now right | exact Hname].
  - intros Hin; apply IH in Hin as [Hin|(j' & Hj' & Hname)]; [now left|].
    right; exists j'; split; [now right | exact Hname].
  - destruct e; simpl; now left.
Qed.

(** X19.  Whatever decoded file is loaded, and whether the load succeeds
    or stops at a failure, the book it leaves is well formed (every
    record under its own name, no key twice), and every key of it is the
    name of an element of the file. *)
Theorem load_from_file_wf (now : datetime) (self : AddressBook)
    (js : list json_record) :
  book_wf (fst (load_from_file now self (Decoded js)))
  /\ forall k, In k (keys (fst (load_from_file now self (Decoded js)))) ->
               exists j, In j js /\ j_name j = Some (Some k).
Proof.
  unfold load_from_file; split.
  - apply load_loop_wf; split; constructor.
  - intros k Hin; apply load_loop_keys in Hin as [[]|Hj]; exact Hj.
Qed.

(** ** The handlers *)

Lemma BirthDayField_init_message now b e (answer : string) :
  BirthDayField.init now b = Raise e ->
  answer = "add completed" \/ answer = "Birthday set successfully" ->
  PyText.str_exn e <> answer.
Proof.
  unfold BirthDayField.init, BirthDayField.__validate_birthday__, fromisoformat,
    DateTime.new.
  intros H Hanswer; revert H.
  repeat match goal with
         | |- context [match ?x with _ => _ end] =>
             match x with
             | context [match _ with _ => _ end] => fail 1
             | _ => destruct x
             end
         end;
    try discriminate;
    intros [= <-]; destruct Hanswer as [-> | ->]; simpl; discriminate.
Qed.

Lemma find_by_name_added self r :
  In r (find_by_name (add_record self r) (NameField.value (name r)) false).
Proof.
  unfold find_by_name; rewrite find_by_name_loop_filter; simpl.
  apply in_map_iff; exists (NameField.value (name r), r); split; [reflexivity|].
  apply filter_In; split; [apply dict_set_In|].
  unfold query_matches; simpl; apply String.eqb_refl.
Qed.

(** X20.  [adding] either stores a record, or leaves the book as it was.
    It stores one when the name, the phone and, if one is given and not
    empty, the birthday are accepted: the record bears that name and
    that one phone, the exact lookup of the name finds it, and the
    answer is "add completed".  Otherwise the answer is the message of
    the validation. *)
Theorem adding_outcome (now : datetime) (book : AddressBook)
    (n phone : string) (b : option string) :
  (exists r,
     Commands.adding now book n phone b = (add_record book r, "add completed")
     /\ name r = NameField.mk n
     /\ phones r = [PhoneField.mk phone]
     /\ (Commands.truthy b = false -> birthday r = None)
     /\ In r (find_by_name (add_record book r) n false))
  \/ (fst (Commands.adding now book n phone b) = book
      /\ snd (Commands.adding now book n phone b) <> "add completed").
Proof.
  unfold Commands.adding, Record_init, NameField.init, NameField.__validate_name__,
    PhoneField.init, PhoneField.__validate_phone__.
  destruct (String.eqb (PyStr.strip n) ""); simpl;
    [right; split; [reflexivity | discriminate]|].
  destruct (String.eqb (PyStr.strip phone) ""); simpl;
    [right; split; [reflexivity | discriminate]|].
  destruct (PyStr.match_phone phone); simpl;
    [|right; split; [reflexivity | discriminate]].
  destruct (Commands.truthy b) eqn:Hb.
  - destruct (BirthDayField.init now b) as [bf|e] eqn:Hbf; simpl.
    + left; eexists; split; [reflexivity|].
      split; [reflexivity|]. split; [reflexivity|]. split; [discriminate|].
      apply (find_by_name_added book
               (set_birthday
                  (add_phone (mk_record (NameField.mk n) [] None) (PhoneField.mk phone))
                  bf)).
    + right; split; [reflexivity|].
      apply (BirthDayField_init_message now b e); [exact Hbf | now left].
  - left; eexists; split; [reflexivity|].
    split; [reflexivity|]. split; [reflexivity|]. split; [reflexivity|].
    apply (find_by_name_added book
             (add_phone (mk_record (NameField.mk n) [] None) (PhoneField.mk phone))).
Qed.

Lemma change_loop_accepted n p d :
  PhoneField.init (Some p) = Ok (PhoneField.mk p) ->
  Commands.change_loop n p d
  = (map (fun kr =>
            if String.eqb (PyText.lower (fst kr)) (PyText.lower n)
            then (fst kr, edit_phone (snd kr) (PhoneField.mk p))
            else kr) d,
     Ok tt).
Proof.
  intros Hp; induction d as [|[key r] d IH]; simpl; [reflexivity|].
  rewrite Hp, IH.
  destruct (String.eqb (PyText.lower key) (PyText.lower n)); reflexivity.
Qed.

Lemma change_loop_rejected n p d e :
  PhoneField.init (Some p) = Raise e ->
  Commands.change_loop n p d
  = (d, if existsb (fun kr => String.eqb (PyText.lower (fst kr)) (PyText.lower n)) d
        then Raise e else Ok tt).
Proof.
  intros Hp; induction d as [|[key r] d IH]; simpl; [reflexivity|].
  rewrite Hp, IH.
  destruct (String.eqb (PyText.lower key) (PyText.lower n)); reflexivity.
Qed.

Lemma find_by_name_exact_none self n :
  (length (find_by_name self n false) =? 0)%nat
  = negb (existsb (fun kr => String.eqb (PyText.lower (fst kr)) (PyText.lower n))
            (data self)).
Proof.
  unfold find_by_name; rewrite find_by_name_loop_filter; cbn [app].
  unfold query_matches.
  induction (data self) as [|[key r] d IH]; [reflexivity|].
  cbn [filter existsb fst].
  destruct (String.eqb (PyText.lower key) (PyText.lower n)); [reflexivity | exact IH].
Qed.

(** X21.  [change], case by case.  When no key is the name, letter case
    apart, it answers "Name is not found" and the book is as it was.
    When some key is and the phone is rejected, it answers the message
    of the validation, which is not "Number is changed", and the book is
    as it was.  When some key is and the phone is accepted, it answers
    "Number is changed", and every record whose key is the name has the
    new phone as its only phone, while the other records, the keys and
    their order are as they were. *)
Theorem change_outcome (book : AddressBook) (n p : string) :
  (find_by_name book n false = [] ->
   Commands.change book n p = (book, "Name is not found"))
  /\ (forall e,
        find_by_name book n false <> [] ->
        PhoneField.init (Some p) = Raise e ->
        Commands.change book n p = (book, PyText.str_exn e)
        /\ PyText.str_exn e <> "Number is changed")
  /\ (find_by_name book n false <> [] ->
      accepted (PhoneField.init (Some p)) = true ->
      Commands.change book n p
      = (mk_book
           (map (fun kr =>
                   if String.eqb (PyText.lower (fst kr)) (PyText.lower n)
                   then (fst kr, edit_phone (snd kr) (PhoneField.mk p))
                   else kr) (data book))
           (max_page book),
         "Number is changed")).
Proof.
  unfold Commands.change.
  split; [intros ->; reflexivity|].
  assert (Hfound : find_by_name book n false <> [] ->
                   (length (find_by_name book n false) =? 0)%nat = false
                   /\ existsb (fun kr => String.eqb (PyText.lower (fst kr))
                                           (PyText.lower n)) (data book) = true).
  { intros Hne.
    assert (H0 : (length (find_by_name book n false) =? 0)%nat = false)
      by (destruct (find_by_name book n false); [contradiction | reflexivity]).
    split; [exact H0|].
    rewrite find_by_name_exact_none in H0; now apply negb_false_iff in H0. }
  split.
  - intros e Hne Hp; destruct (Hfound Hne) as [H0 Hex]; rewrite H0.
    rewrite (change_loop_rejected n p (data book) e Hp), Hex; simpl.
    split; [now destruct book|].
    revert Hp; unfold PhoneField.init, PhoneField.__validate_phone__.
    destruct (String.eqb (PyStr.strip p) ""); simpl;
      [intros [= <-]; discriminate|].
    destruct (PyStr.match_phone p); simpl; [discriminate|].
    intros [= <-]; discriminate.
  - intros Hne Hp; destruct (Hfound Hne) as [H0 _]; rewrite H0.
    now rewrite (change_loop_accepted n p (data book) (PhoneField_init_accepted p Hp)).
Qed.

Lemma change_outcome_witness :
  find_by_name Sample2.book2 "ann" false <> []
  /\ accepted (PhoneField.init (Some "0501234567")) = true
  /\ map (fun kr => map PhoneField.value (phones (snd kr)))
       (data (fst (Commands.change Sample2.book2 "ann" "0501234567")))
     = [["0501234567"]; ["0501234567"]; ["+380671112233"; "+0501234567"]]
  /\ snd (Commands.change Sample2.book2 "ann" "0501234567") = "Number is changed".
Proof.
  assert (Hfound : find_by_name Sample2.book2 "ann" false <> [])
    by (vm_compute; discriminate).
  assert (Hp : accepted (PhoneField.init (Some "0501234567")) = true)
    by (vm_compute; reflexivity).
  destruct (change_outcome Sample2.book2 "ann" "0501234567") as (_ & _ & Hok).
  rewrite (Hok Hfound Hp).
  split; [exact Hfound|]. split; [exact Hp|]. split; reflexivity.
Defined.

Lemma birthday_loop_spec now n b d :
  match Commands.birthday_loop now n b d with
  | None =>
      Forall (fun kr => String.eqb (PyText.lower (fst kr)) (PyText.lower n) = false) d
  | Some (d', message) =>
      exists pre key r post,
        d = pre ++ (key, r) :: post
        /\ Forall (fun kr => String.eqb (PyText.lower (fst kr)) (PyText.lower n) = false)
             pre
        /\ String.eqb (PyText.lower key) (PyText.lower n) = true
        /\ match BirthDayField.init now (Some b) with
           | Ok bf =>
               d' = pre ++ (key, set_birthday r bf) :: post
               /\ message = "Birthday set successfully"
           | Raise e => d' = d /\ message = PyText.str_exn e
           end
  end.
Proof.
  induction d as [|[key r] d IH]; simpl; [constructor|].
  destruct (String.eqb (PyText.lower key) (PyText.lower n)) eqn:Hkey.
  - destruct (BirthDayField.init now (Some b)) as [bf|e];
      exists [], key, r, d; simpl; auto.
  - destruct (Commands.birthday_loop now n b d) as [[d' message]|].
    + destruct IH as (pre & key' & r' & post & -> & Hpre & Hkey' & Hres).
      exists ((key, r) :: pre), key', r', post; simpl.
      split; [reflexivity|]. split; [constructor; assumption|].
      split; [exact Hkey'|].
      destruct (BirthDayField.init now (Some b)); destruct Hres as [-> ->]; auto.
    + constructor; assumption.
Qed.

Lemma birthday_loop_none now n b d :
  Forall (fun kr => String.eqb (PyText.lower (fst kr)) (PyText.lower n) = false) d ->
  Commands.birthday_loop now n b d = None.
Proof.
  induction 1 as [|[key r] d Hkey _ IH]; simpl in *; [reflexivity|].
  now rewrite Hkey, IH.
Qed.

Lemma birthday_loop_first now n b pre key r post :
  Forall (fun kr => String.eqb (PyText.lower (fst kr)) (PyText.lower n) = false) pre ->
  String.eqb (PyText.lower key) (PyText.lower n) = true ->
  Commands.birthday_loop now n b (pre ++ (key, r) :: post)
  = Some match BirthDayField.init now (Some b) with
         | Ok bf =>
             (pre ++ (key, set_birthday r bf) :: post, "Birthday set successfully")
         | Raise e => (pre ++ (key, r) :: post, PyText.str_exn e)
         end.
Proof.
  intros Hpre Hkey; induction Hpre as [|[key' r'] pre Hkey' _ IH]; simpl in *.
  - rewrite Hkey; destruct (BirthDayField.init now (Some b)); reflexivity.
  - rewrite Hkey', IH; destruct (BirthDayField.init now (Some b)); reflexivity.
Qed.

(** X22.  [birthday], case by case.  When no key is the name, letter
    case apart, it answers "Name is not found" and the book is as it
    was.  Otherwise take the first entry, in key order, whose key is the
    name.  When the birthday is rejected, it answers the message of the
    validation, which is not "Birthday set successfully", and the book
    is as it was.  When the birthday is accepted, it answers "Birthday
    set successfully", the record of that entry has the new birthday,
    and every other entry is as it was, the later ones whose key is the
    name too. *)
Theorem birthday_outcome (now : datetime) (book : AddressBook) (n b : string) :
  (Forall (fun kr => String.eqb (PyText.lower (fst kr)) (PyText.lower n) = false)
     (data book) ->
   Commands.birthday now book n b = (book, "Name is not found"))
  /\ (forall pre key r post,
        data book = pre ++ (key, r) :: post ->
        Forall (fun kr => String.eqb (PyText.lower (fst kr)) (PyText.lower n) = false)
          pre ->
        String.eqb (PyText.lower key) (PyText.lower n) = true ->
        (forall e,
           BirthDayField.init now (Some b) = Raise e ->
           Commands.birthday now book n b = (book, PyText.str_exn e)
           /\ PyText.str_exn e <> "Birthday set successfully")
        /\ (forall bf,
              BirthDayField.init now (Some b) = Ok bf ->
              Commands.birthday now book n b
              = (mk_book (pre ++ (key, set_birthday r bf) :: post) (max_page book),
                 "Birthday set successfully"))).
Proof.
  unfold Commands.birthday; split.
  - intros Hnone; now rewrite birthday_loop_none.
  - intros pre key r post Hdata Hpre Hkey.
    rewrite Hdata, (birthday_loop_first now n b pre key r post Hpre Hkey).
    split.
    + intros e Hb; rewrite Hb; split.
      * rewrite <- Hdata; now destruct book.
      * apply (BirthDayField_init_message now (Some b) e); [exact Hb | now right].
    + intros bf Hb; now rewrite Hb.
Qed.

Lemma birthday_outcome_witness :
  map (fun kr => option_map BirthDayField.value (birthday (snd kr)))
    (data (fst (Commands.birthday Sample.noon_2024_05_10 Sample2.book2
                  "ANN" "2001-01-01")))
  = [Some "2001-01-01"; None; None]
  /\ snd (Commands.birthday Sample.noon_2024_05_10 Sample2.book2 "ANN" "2001-01-01")
     = "Birthday set successfully".
Proof.
  destruct (birthday_outcome Sample.noon_2024_05_10 Sample2.book2 "ANN" "2001-01-01")
    as [_ Hfirst].
  destruct (Hfirst [] "Ann" Sample.ann [("ANN", Sample.ann2); ("Cy", Sample.cy)]
              eq_refl (Forall_nil _) eq_refl) as [_ Hok].
  rewrite (Hok (BirthDayField.mk "2001-01-01" (Some (mk_datetime 2001 1 1 0 0 0 0)))
             eq_refl).
  split; reflexivity.
Defined.

Lemma join_empty_cons x l :
  PyText.join "" (x :: l) = (x ++ PyText.join "" l)%string.
Proof. destruct l; simpl; [now rewrite string_app_nil_r | reflexivity]. Qed.

Lemma render_loop_lines now rs lines info_line :
  Forall2 (fun r line => record_str now r = Ok line) rs lines ->
  Commands.render_loop now rs info_line
  = ((info_line ++ PyText.join "" lines)%string, Ok tt).
Proof.
  intros H; revert info_line; induction H as [|r line rs lines Hr _ IH];
    intros info_line.
  - simpl; now rewrite string_app_nil_r.
  - cbn [Commands.render_loop]; rewrite Hr, IH, join_empty_cons.
    now rewrite string_app_assoc.
Qed.

Lemma render_loop_stops now pre r post lines e info_line :
  Forall2 (fun r line => record_str now r = Ok line) pre lines ->
  record_str now r = Raise e ->
  Commands.render_loop now (pre ++ r :: post) info_line
  = ((info_line ++ PyText.join "" lines)%string, Raise e).
Proof.
  intros H Hr; revert info_line; induction H as [|r' line pre lines Hr' _ IH];
    intros info_line.
  - simpl; now rewrite Hr, string_app_nil_r.
  - cbn [Commands.render_loop app]; rewrite Hr', IH, join_empty_cons.
    now rewrite string_app_assoc.
Qed.

(** X23.  [show] of an argument other than [all] that [int(n, 10)]
    reads as the number [k]; a [k] below 1 stands for 1.  When the
    number is above the page count, the answer is the text of the
    [KeyError], which names the page count plus one.  When it is within
    the page count and every record of that page can be printed, the
    answer is the lines of these records, one after the other.  When
    it is within the page count and a record of that page raises
    [ValueError] when printed, as one born on a 29 February does, the
    handler turns to the lookup of [n] as a name: if no key is [n], the
    answer is "Name is not found". *)
Theorem show_page_number (int10 : string -> option Z) (now : datetime)
    (book : AddressBook) (n : string) (k : Z) :
  String.eqb n "all" = false -> int10 n = Some k ->
  (Z.of_nat (length (iter book)) < Z.max 1 k ->
   Commands.show int10 now book n
   = Ok ("'index out of range in book, max page: "
         ++ PyStr.str_int (Z.of_nat (length (iter book)) + 1) ++ "'")%string)
  /\ (Z.max 1 k <= Z.of_nat (length (iter book)) ->
      (forall lines,
         Forall2 (fun r line => record_str now r = Ok line)
           (nth (Z.to_nat (Z.max 1 k - 1)) (iter book) []) lines ->
         Commands.show int10 now book n = Ok (PyText.join "" lines))
      /\ (forall pre r post lines e,
            nth (Z.to_nat (Z.max 1 k - 1)) (iter book) [] = pre ++ r :: post ->
            Forall2 (fun r line => record_str now r = Ok line) pre lines ->
            record_str now r = Raise (ValueError e) ->
            find_by_name book n false = [] ->
            Commands.show int10 now book n = Ok "Name is not found")).
Proof.
  intros Hn Hint; unfold Commands.show; rewrite Hn, Hint.
  assert (Hmax : (if k <? 1 then 1 else k) = Z.max 1 k)
    by (destruct (Z.ltb_spec k 1); lia).
  rewrite Hmax; unfold getitem; split.
  - intros Hout; rewrite getitem_loop_out by lia.
    rewrite (Z.add_comm 1); reflexivity.
  - intros Hin; rewrite getitem_loop_in by lia; split.
    + intros lines Hlines.
      now rewrite (render_loop_lines now _ lines "" Hlines).
    + intros pre r post lines e Hpage Hpre Hr Hnone.
      rewrite Hpage, (render_loop_stops now pre r post lines _ "" Hpre Hr), Hnone.
      reflexivity.
Qed.

Lemma show_page_number_witness :
  Commands.show (fun _ => Some (-4)) Sample.noon_2024_05_10 Sample.book4 "-4"
  = Ok (PyText.join ""
          (map (fun r => match record_str Sample.noon_2024_05_10 r with
                         | Ok line => line
                         | Raise _ => ""
                         end)
             [Sample.ann; Sample.cy; Sample.dan])).
Proof.
  destruct (show_page_number (fun _ => Some (-4)) Sample.noon_2024_05_10
              Sample.book4 "-4" (-4) eq_refl eq_refl) as [_ Hpage].
  destruct (Hpage ltac:(vm_compute; discriminate)) as [Hlines _].
  apply Hlines.
  repeat constructor.
Defined.

(** ** The command loop *)

Lemma split_once_head sep s :
  all_chars (fun c => negb (Ascii.eqb c sep)) (fst (PyText.split_once sep s)) = true.
Proof.
  induction s as [|c s IH]; simpl; [reflexivity|].
  destruct (Ascii.eqb c sep) eqn:Hc; simpl; [reflexivity|].
  destruct (PyText.split_once sep s) as [h t]; simpl in *.
  now rewrite Hc, IH.
Qed.

Lemma main_step_not_exit command data :
  match Repl.commands command with
  | Some h =>
      match Repl.input_error command data with
      | Repl.Usage message => Repl.Print message
      | Repl.Call args => Repl.Run h args
      end
  | None => Repl.Print "Not correct command"
  end <> Repl.Exit.
Proof.
  destruct (Repl.commands command); [|discriminate].
  destruct (Repl.input_error command data); discriminate.
Qed.

(** X24.  The loop reaches its [break], where it prints its farewell
    and after which the book is saved, on a line exactly when the word
    before the first space of the stripped line is [exit] or [close],
    whatever follows it.  That word holds no space, so it is never
    [good bye]: the third exit command cannot be given.  (The loop can
    also be left by an exception of a handler; that is no [break], and
    nothing is saved then.) *)
Theorem main_step_exit (line : string) :
  (Repl.main_step line = Repl.Exit
   <-> fst (PyText.split_once " " (PyStr.strip line)) = "exit"
       \/ fst (PyText.split_once " " (PyStr.strip line)) = "close")
  /\ fst (PyText.split_once " " (PyStr.strip line)) <> "good bye".
Proof.
  pose proof (split_once_head " " (PyStr.strip line)) as Hhead.
  unfold Repl.main_step.
  destruct (PyText.split_once " " (PyStr.strip line)) as [command data]; simpl in *.
  assert (Hgb : command <> "good bye")
    by (intros ->; vm_compute in Hhead; discriminate).
  split; [|exact Hgb].
  rewrite orb_false_r.
  destruct (String.eqb_spec command "good bye") as [?|_]; [contradiction|].
  destruct (String.eqb_spec command "exit") as [->|Hexit]; simpl; [tauto|].
  destruct (String.eqb_spec command "close") as [->|Hclose]; simpl; [tauto|].
  split; [|tauto].
  intros H; exfalso; revert H; apply main_step_not_exit.
Qed.

(** X25.  The alias [hi] never greets: on every line whose first word is
    [hi], whatever follows, the wrapper of [hello] returns "Not correct
    validation" without calling it. *)
Theorem main_step_hi (line : string) :
  fst (PyText.split_once " " (PyStr.strip line)) = "hi" ->
  Repl.main_step line = Repl.Print "Not correct validation".
Proof.
  unfold Repl.main_step.
  destruct (PyText.split_once " " (PyStr.strip line)) as [command data]; simpl.
  intros ->; reflexivity.
Qed.

Lemma main_step_hi_witness :
  Repl.main_step "  hi Bob" = Repl.Print "Not correct validation".
Proof. apply (main_step_hi "  hi Bob"). reflexivity. Defined.

(** X26.  When the loop calls a handler, it is the handler of the first
    word, with arguments none of which is empty of a value except the
    missing name of [hello]: [change] and [birthday] get two, [show],
    [find] and [hello] one, and [adding] two or more. *)
Theorem main_step_run (line : string) (h : Repl.handler) (args : list (option string)) :
  Repl.main_step line = Repl.Run h args ->
  Repl.commands (fst (PyText.split_once " " (PyStr.strip line))) = Some h
  /\ match h with
     | Repl.Adding => (2 <= length args)%nat
     | Repl.Change | Repl.Birthday => length args = 2%nat
     | Repl.Show | Repl.Find | Repl.Hello => length args = 1%nat
     end
  /\ (h <> Repl.Hello -> Forall (fun a => a <> None) args).
Proof.
  unfold Repl.main_step.
  destruct (PyText.split_once " " (PyStr.strip line)) as [command data]; simpl fst.
  destruct (existsb (String.eqb command) Repl.exit_commands); [discriminate|].
  set (inputs := match data with
                 | Some rest => map PyStr.strip (PyText.split "," rest)
                 | None => []
                 end).
  clearbody inputs.
  assert (Hsome : Forall (fun a : option string => a <> None) (map Some inputs))
    by (apply Forall_forall; intros a [x [<- _]]%in_map_iff; discriminate).
  unfold Repl.commands.
  destruct (String.eqb_spec command "hello") as [->|_].
  { change (Repl.input_error "hello" inputs)
      with (match inputs with
            | first :: _ => Repl.Call [Some first]
            | [] => Repl.Call [None]
            end).
    destruct inputs; intros [= <- <-]; repeat split; congruence. }
  destruct (String.eqb_spec command "hi") as [->|_]; [discriminate|].
  destruct (String.eqb_spec command "add") as [->|_].
  { change (Repl.input_error "add" inputs)
      with (if (1 <? length inputs)%nat then Repl.Call (map Some inputs)
            else Repl.Usage "Give me name and phone please, birthday optional").
    destruct (Nat.ltb_spec 1 (length inputs)); try discriminate; intros [= <- <-].
    rewrite length_map; repeat split; auto. }
  destruct (String.eqb_spec command "show") as [->|_].
  { change (Repl.input_error "show" inputs)
      with (if (length inputs =? 1)%nat then Repl.Call (map Some inputs)
            else Repl.Usage "Show must be with parameter `all` or name").
    destruct (Nat.eqb_spec (length inputs) 1); try discriminate; intros [= <- <-].
    rewrite length_map; repeat split; auto. }
  destruct (String.eqb_spec command "find") as [->|_].
  { change (Repl.input_error "find" inputs)
      with (if (length inputs =? 1)%nat then Repl.Call (map Some inputs)
            else Repl.Usage "Find must be with one parameter (part of phone or name)").
    destruct (Nat.eqb_spec (length inputs) 1); try discriminate; intros [= <- <-].
    rewrite length_map; repeat split; auto. }
  destruct (String.eqb_spec command "change") as [->|_].
  { change (Repl.input_error "change" inputs)
      with (if (length inputs =? 2)%nat then Repl.Call (map Some inputs)
            else Repl.Usage "Give me name and phone please").
    destruct (Nat.eqb_spec (length inputs) 2); try discriminate; intros [= <- <-].
    rewrite length_map; repeat split; auto. }
  destruct (String.eqb_spec command "birthday") as [->|_]; [|discriminate].
  change (Repl.input_error "birthday" inputs)
    with (if (length inputs =? 2)%nat then Repl.Call (map Some inputs)
          else Repl.Usage "Give me name and birthday please").
  destruct (Nat.eqb_spec (length inputs) 2); try discriminate; intros [= <- <-].
  rewrite length_map; repeat split; auto.
Qed.

Lemma main_step_run_witness :
  Repl.main_step "add Ann , +380501112233,2000-01-01, x"
  = Repl.Run Repl.Adding
      [Some "Ann"; Some "+380501112233"; Some "2000-01-01"; Some "x"]
  /\ (2 <= 4)%nat.
Proof.
  split; [reflexivity|].
  apply (main_step_run "add Ann , +380501112233,2000-01-01, x" Repl.Adding
           [Some "Ann"; Some "+380501112233"; Some "2000-01-01"; Some "x"]).
  reflexivity.
Defined.
